(** * script/02下载jdks.py: the JDK fetcher and its driver

    A shallow embedding of [download_jdk] and [main].  The script talks to
    three things outside itself: the working directory, the Adoptium HTTP
    endpoint (through [requests]) and the terminal.  The embedding makes
    each of them explicit:

    - the working directory is a finite map from names to nodes;
    - the HTTP endpoint is an oracle from the requested URL to either an
      exception or a response (status, final URL, headers, body stream);
    - everything the script prints, requests, reads and writes is recorded
      in a trace of events, in program order.

    Python [str] values are represented by their UTF-8 bytes (a Rocq
    [string]); the payload of a response is a list of bytes. *)

From Stdlib Require Import ZArith DecimalString DecimalZ DecimalPos.
From Stdlib Require Import Ascii String List Lia.
From Stdlib.Strings Require Import Byte.
From stdpp Require Import gmap strings list fin_maps.

Local Open Scope string_scope.
Local Open Scope Z_scope.
Local Open Scope list_scope.

(** ** Python strings *)

Module PyStr.

(** [str(n)] for an [int], as used by the f-strings of the script. *)
Definition str_int (z : Z) : string := NilZero.string_of_int (Z.to_int z).

Definition is_digit (c : ascii) : bool :=
  let n := N_of_ascii c in ((48 <=? n) && (n <=? 57))%N.

Definition is_hex (c : ascii) : bool :=
  let n := N_of_ascii c in
  (((48 <=? n) && (n <=? 57)) || ((65 <=? n) && (n <=? 70))
   || ((97 <=? n) && (n <=? 102)))%N.

Definition hex_val (c : ascii) : N :=
  let n := N_of_ascii c in
  (if n <=? 57 then n - 48 else if n <=? 70 then n - 55 else n - 87)%N.

(** [urllib.parse.unquote]: every ["%XY"] with two hexadecimal digits is
    replaced by the byte it denotes; a ['%'] that is not followed by two
    hexadecimal digits is kept as it is.  (The library then decodes the
    bytes as UTF-8; on the byte representation used here that is the
    identity for well-formed UTF-8.) *)
Fixpoint unquote (s : string) : string :=
  match s with
  | EmptyString => EmptyString
  | String c s' =>
      if Ascii.eqb c "%"%char then
        match s' with
        | String a (String b rest) =>
            if is_hex a && is_hex b
            then String (ascii_of_N (16 * hex_val a + hex_val b)) (unquote rest)
            else String c (unquote s')
        | _ => String c (unquote s')
        end
      else String c (unquote s')
  end.

Definition is_space (c : ascii) : bool :=
  let n := N_of_ascii c in ((n =? 32) || ((9 <=? n) && (n <=? 13)))%N.

Fixpoint lstrip (s : string) : string :=
  match s with
  | String c s' => if is_space c then lstrip s' else s
  | EmptyString => EmptyString
  end.

Definition strip (s : string) : string :=
  String.rev (lstrip (String.rev (lstrip s))).

(** Decimal digits with single underscores between them, as [int]
    reads them. [seen] records that the previous character was a digit. *)
Fixpoint digits (acc : Z) (seen : bool) (s : string) : option Z :=
  match s with
  | EmptyString => if seen then Some acc else None
  | String c s' =>
      if is_digit c
      then digits (10 * acc + Z.of_N (N_of_ascii c - 48)) true s'
      else if Ascii.eqb c "_"%char && seen then digits acc false s'
      else None
  end.

(** [int(s)] for a [str] in base ten: [None] stands for [ValueError]. *)
Definition int (s : string) : option Z :=
  match strip s with
  | String "-" s' => Z.opp <$> digits 0 false s'
  | String "+" s' => digits 0 false s'
  | s' => digits 0 false s'
  end.

End PyStr.

(** ** pathlib *)

Module PurePath.

(** [s.split('/')]: the pieces between the slashes, empty ones included. *)
Fixpoint split_slash (s : string) : list string :=
  match s with
  | EmptyString => [EmptyString]
  | String c s' =>
      if Ascii.eqb c "/"%char then EmptyString :: split_slash s'
      else match split_slash s' with
           | h :: t => String c h :: t
           | [] => [String c EmptyString]
           end
  end.


Definition is_part (p : string) : bool :=
  negb (String.eqb p "") && negb (String.eqb p ".").

(** The components of a POSIX path: empty components and ["."] are
    dropped, [".."] is kept. *)
Definition parts (s : string) : list string :=
  List.filter is_part (split_slash s).

(** [Path(s).name]: the last component, or [""] when there is none. *)
Definition name (s : string) : string := List.last (parts s) "".

End PurePath.

(** ** Locators, in the words of the specification *)

Module Locator.




End Locator.

(** ** The working directory *)

Module Fs.

(** What a version directory may contain. *)
Inductive entry :=
| EFile (data : list byte)
| ESubdir.

(** What the working directory may contain under one name. *)
Inductive node :=
| NFile (data : list byte)
| NDir (children : gmap string entry).

Abbreviation t := (gmap string node).


Definition is_file (fs : t) (d : string) : bool :=
  match fs !! d with Some (NFile _) => true | _ => false end.

(** [Path(d).mkdir(parents=True, exist_ok=True)] for a one-component
    relative path [d]: creates the directory when the name is free, does
    nothing when it is a directory already, and fails when the name is
    taken by something that is not a directory. [None] is that failure
    ([FileExistsError]). *)
Definition mkdir (d : string) (fs : t) : option t :=
  match fs !! d with
  | None => Some (<[d := NDir ∅]> fs)
  | Some (NDir _) => Some fs
  | Some (NFile _) => None
  end.

(** [(Path(d) / name).exists()].  Joining with [""] gives the directory
    itself and [".."] leads back to the working directory. *)
Definition path_exists (d name : string) (fs : t) : bool :=
  match fs !! d with
  | Some (NDir c) =>
      if String.eqb name "" || String.eqb name ".." then true
      else bool_decide (is_Some (c !! name))
  | _ => false
  end.

(** [open(path, 'wb')]: the file is created, or cut to length zero when
    it is there already. *)
Definition open_wb (d name : string) (fs : t) : t :=
  match fs !! d with
  | Some (NDir c) => <[d := NDir (<[name := EFile []]> c)]> fs
  | _ => fs
  end.

(** Follows the specification's words, not the source: opening for
    exclusive creation fails ([None]) when something exists at the path
    and creates the empty file otherwise. *)
Definition open_exclusive (d name : string) (fs : t) : option t :=
  if path_exists d name fs then None else Some (open_wb d name fs).

(** [f.write(chunk)] on the file opened at [d/name]. *)
Definition write (d name : string) (chunk : list byte) (fs : t) : t :=
  match fs !! d with
  | Some (NDir c) =>
      match c !! name with
      | Some (EFile old) => <[d := NDir (<[name := EFile (old ++ chunk)]> c)]> fs
      | _ => fs
      end
  | _ => fs
  end.

(** The bytes of the regular file at [d/name], if there is one. *)
Definition read (d name : string) (fs : t) : option (list byte) :=
  match fs !! d with
  | Some (NDir c) =>
      match c !! name with Some (EFile data) => Some data | _ => None end
  | _ => None
  end.

End Fs.

(** ** Exceptions, responses and the trace *)

(** The exception classes that matter to the handlers of [download_jdk].
    All of them derive from [Exception]; [HTTPError] derives from
    [RequestException]. *)
Inductive exn :=
| HTTPError (status : Z)
| RequestException (detail : string)
| FileExistsError (path : string)
| OSError (detail : string)
| ValueError (detail : string).

(** What [requests.get(..., stream=True, allow_redirects=True)] hands back.
    The body is not read yet: [payload] is what the stream will deliver
    and [broken_after = Some (k, e)] says that the stream raises [e] once
    [k] chunks have been yielded. *)
Record response := {
  status_code : Z;
  url : string;
  content_length : option string;
  payload : list byte;
  broken_after : option (nat * exn)
}.

(** The world outside the working directory. *)
Record environment := {
  http_get : string -> exn + response;
  open_error : string -> string -> option string
}.

(** One constructor for each [print] of the script. *)
Inductive msg :=
| MProcessing (version : Z) (version_dir : string)
| MRequest (api_url : string)
| MExists (version_dir filename : string)
| MPrepare (filename : string) (total_size : Z)
| MSaveTo (version_dir filename : string)
| MDone (version_dir filename : string)
| MNotFound (version : Z)
| MHTTPError (version : Z) (e : exn)
| MRequestFailed (version : Z) (e : exn)
| MUnknown (version : Z) (e : exn)
| MRule
| MTitle
| MNote
| MAllDone.

(** What the script does to the world, in program order: a line printed,
    the request of line 39 issued, the destination opened, a chunk of [n]
    bytes yielded by the stream, [n] bytes written to the destination, and
    the progress bar showing [n] bytes of [total] after an update. *)
Inductive event :=
| Print (m : msg)
| Get (api_url : string)
| Open (version_dir filename : string)
| Recv (n : nat)
| Write (version_dir filename : string) (n : nat)
| Progress (n : nat) (total : Z).

(** ** The monad of the script: state, trace and exceptions *)

Record run (A : Type) := Run {
  result : exn + A;
  final_fs : Fs.t;
  trace : list event
}.
Arguments Run {A} _ _ _.
Arguments result {A} _.
Arguments final_fs {A} _.
Arguments trace {A} _.

Definition M (A : Type) : Type := Fs.t -> run A.

Definition ret {A} (a : A) : M A := fun fs => Run (inr a) fs [].

Definition raise {A} (e : exn) : M A := fun fs => Run (inl e) fs [].

Definition bind {A B} (c : M A) (k : A -> M B) : M B :=
  fun fs =>
    let r := c fs in
    match result r with
    | inl e => Run (inl e) (final_fs r) (trace r)
    | inr a =>
        let r' := k a (final_fs r) in
        Run (result r') (final_fs r') (trace r ++ trace r')
    end.

(** [try: c except Exception as e: h e]. *)
Definition try_except {A} (c : M A) (h : exn -> M A) : M A :=
  fun fs =>
    let r := c fs in
    match result r with
    | inl e =>
        let r' := h e (final_fs r) in
        Run (result r') (final_fs r') (trace r ++ trace r')
    | inr a => r
    end.

Definition emit (ev : event) : M unit := fun fs => Run (inr tt) fs [ev].

Definition print (m : msg) : M unit := emit (Print m).

Definition get_fs : M Fs.t := fun fs => Run (inr fs) fs [].

Definition modify_fs (f : Fs.t -> Fs.t) : M unit := fun fs => Run (inr tt) (f fs) [].

Notation "'let*' x ':=' c 'in' k" := (bind c (fun x => k))
  (at level 10, x name, c at level 100, k at level 200).
Notation "c >> k" := (bind c (fun _ => k))
  (at level 65, right associativity).

Fixpoint for_each {A} (l : list A) (body : A -> M unit) : M unit :=
  match l with
  | [] => ret tt
  | x :: xs => body x >> for_each xs body
  end.

(** ** The script *)

Fixpoint nat_range (start : Z) (n : nat) : list Z :=
  match n with
  | O => []
  | S n' => start :: nat_range (start + 1) n'
  end.

(** [range(start, stop)]. *)
Definition py_range (start stop : Z) : list Z :=
  nat_range start (Z.to_nat (stop - start)).

Definition JDK_VERSIONS : list Z := py_range 8 22.

Definition OS_TYPE := "linux".
Definition ARCH_TYPE := "x64".
Definition IMAGE_TYPE := "jdk".
Definition JVM_IMPL := "hotspot".
Definition HEAP_SIZE := "normal".
Definition VENDOR := "eclipse".
Definition RELEASE_TYPE := "ga".

(** [Path(f"jdk{version}")] (line 25). *)
Definition version_dir (version : Z) : string :=
  "jdk" +:+ PyStr.str_int version.

(** Lines 29-32. *)
Definition api_url (version : Z) : string :=
  "https://api.adoptium.net/v3/binary/latest/" +:+ PyStr.str_int version
  +:+ "/" +:+ RELEASE_TYPE +:+ "/" +:+ OS_TYPE +:+ "/" +:+ ARCH_TYPE
  +:+ "/" +:+ IMAGE_TYPE +:+ "/" +:+ JVM_IMPL +:+ "/" +:+ HEAP_SIZE
  +:+ "/" +:+ VENDOR.

(** The pieces of [size] bytes a body is read in; the last one may be
    shorter.  [fuel] bounds the number of pieces. *)
Fixpoint chunks_of (size fuel : nat) (l : list byte) : list (list byte) :=
  match fuel with
  | O => []
  | S fuel' =>
      match l with
      | [] => []
      | _ => take size l :: chunks_of size fuel' (drop size l)
      end
  end.

(** [r.iter_content(chunk_size)]: the chunks the loop receives, and the
    exception that ends the iteration when the stream breaks. *)
Definition iter_content (chunk_size : Z) (r : response)
  : list (list byte) * option exn :=
  let all := chunks_of (Z.to_nat chunk_size) (length (payload r)) (payload r) in
  match broken_after r with
  | None => (all, None)
  | Some (k, e) => (take k all, Some e)
  end.

(** The statuses [raise_for_status] turns into an [HTTPError]: the client
    errors and the server errors. *)
Definition is_error_status (status : Z) : bool :=
  (400 <=? status) && (status <? 600).

Section Script.

Variable env : environment.

(** Line 26. *)
Definition mkdir (d : string) : M unit :=
  fun fs =>
    match Fs.mkdir d fs with
    | Some fs' => Run (inr tt) fs' []
    | None => Run (inl (FileExistsError d)) fs []
    end.

(** Line 39. *)
Definition requests_get (u : string) : M response :=
  emit (Get u) >>
  match http_get env u with
  | inl e => raise e
  | inr r => ret r
  end.

(** Line 41: [r.raise_for_status()]. *)
Definition raise_for_status (r : response) : M unit :=
  if is_error_status (status_code r)
  then raise (HTTPError (status_code r))
  else ret tt.

(** Line 50. *)
Definition path_exists (d name : string) : M bool :=
  let* fs := get_fs in ret (Fs.path_exists d name fs).

(** Line 55: [int(r.headers.get('content-length', 0))]. *)
Definition header_int (h : option string) : M Z :=
  match h with
  | None => ret 0
  | Some s =>
      match PyStr.int s with
      | Some n => ret n
      | None => raise (ValueError s)
      end
  end.

(** Line 61: [open(destination_path, 'wb')]. *)
Definition open_wb (d name : string) : M unit :=
  match open_error env d name with
  | Some detail => raise (OSError detail)
  | None => emit (Open d name) >> modify_fs (Fs.open_wb d name)
  end.

(** Lines 69-71, for the chunks the stream yields.  [written] is the
    counter of the progress bar. *)
Fixpoint write_chunks (d name : string) (total : Z) (written : nat)
    (chunks : list (list byte)) : M unit :=
  match chunks with
  | [] => ret tt
  | chunk :: rest =>
      emit (Recv (length chunk)) >>
      modify_fs (Fs.write d name chunk) >>
      emit (Write d name (length chunk)) >>
      emit (Progress (written + length chunk) total) >>
      write_chunks d name total (written + length chunk) rest
  end.

(** Lines 61-71. *)
Definition stream_to_file (r : response) (d name : string) (total : Z)
  : M unit :=
  open_wb d name >>
  let '(chunks, broken) := iter_content 8192 r in
  write_chunks d name total 0 chunks >>
  match broken with
  | Some e => raise e
  | None => ret tt
  end.

(** Lines 39-73, the body of the [try]. *)
Definition fetch (version : Z) : M unit :=
  let* r := requests_get (api_url version) in
  raise_for_status r >>
  let filename := PurePath.name (PyStr.unquote (url r)) in
  let* present := path_exists (version_dir version) filename in
  if present then print (MExists (version_dir version) filename)
  else
    let* total_size := header_int (content_length r) in
    print (MPrepare filename total_size) >>
    print (MSaveTo (version_dir version) filename) >>
    stream_to_file r (version_dir version) filename total_size >>
    print (MDone (version_dir version) filename).

(** Lines 75-83, the three [except] clauses in their order. *)
Definition handler (version : Z) (e : exn) : M unit :=
  match e with
  | HTTPError status =>
      if status =? 404 then print (MNotFound version)
      else print (MHTTPError version e)
  | RequestException _ => print (MRequestFailed version e)
  | _ => print (MUnknown version e)
  end.

Definition download_jdk (version : Z) : M unit :=
  mkdir (version_dir version) >>
  print (MProcessing version (version_dir version)) >>
  print (MRequest (api_url version)) >>
  try_except (fetch version) (handler version).

Definition main : M unit :=
  print MRule >> print MTitle >> print MNote >> print MRule >>
  for_each JDK_VERSIONS download_jdk >>
  print MAllDone.

End Script.

(** ** The outcomes of the specification

    [download_jdk] returns nothing; what happened to a version shows in the
    line it prints last.  The five outcomes of the specification are read
    off those lines. *)
Inductive FetchOutcome :=
| Downloaded | AlreadyPresent | NotFound | NetworkError | UnknownError.

Definition outcome_of_msg (m : msg) : option FetchOutcome :=
  match m with
  | MDone _ _ => Some Downloaded
  | MExists _ _ => Some AlreadyPresent
  | MNotFound _ => Some NotFound
  | MHTTPError _ _ => Some NetworkError
  | MRequestFailed _ _ => Some NetworkError
  | MUnknown _ _ => Some UnknownError
  | _ => None
  end.

Definition outcome_of_event (ev : event) : option FetchOutcome :=
  match ev with
  | Print m => outcome_of_msg m
  | _ => None
  end.

Definition outcomes (tr : list event) : list FetchOutcome :=
  omap outcome_of_event tr.

(** ** Reading a trace *)

Definition recvs (tr : list event) : list nat :=
  omap (fun ev => match ev with Recv n => Some n | _ => None end) tr.

Definition writes (tr : list event) : list (string * string * nat) :=
  omap (fun ev => match ev with Write d f n => Some (d, f, n) | _ => None end) tr.

Definition opens (tr : list event) : list (string * string) :=
  omap (fun ev => match ev with Open d f => Some (d, f) | _ => None end) tr.

Definition progress (tr : list event) : list (nat * Z) :=
  omap (fun ev => match ev with Progress n t => Some (n, t) | _ => None end) tr.

Definition requests (tr : list event) : list string :=
  omap (fun ev => match ev with Get u => Some u | _ => None end) tr.

Definition processed (tr : list event) : list Z :=
  omap (fun ev => match ev with
                  | Print (MProcessing v _) => Some v
                  | _ => None
                  end) tr.

(** The sums [a + x1], [a + x1 + x2], ... of a list [x1; x2; ...]. *)
Fixpoint running_totals (a : nat) (l : list nat) : list nat :=
  match l with
  | [] => []
  | x :: l' => (a + x)%nat :: running_totals (a + x) l'
  end.

(** The events of lines 69-71 for a list of chunks. *)
Fixpoint chunk_events (d name : string) (total : Z) (written : nat)
    (chunks : list (list byte)) : list event :=
  match chunks with
  | [] => []
  | chunk :: rest =>
      Recv (length chunk) :: Write d name (length chunk)
      :: Progress (written + length chunk) total
      :: chunk_events d name total (written + length chunk) rest
  end.

(** The line an [except] clause prints for an exception. *)
Definition handler_msg (version : Z) (e : exn) : msg :=
  match e with
  | HTTPError status =>
      if status =? 404 then MNotFound version else MHTTPError version e
  | RequestException _ => MRequestFailed version e
  | _ => MUnknown version e
  end.

(** The value of [total_size] for a [content-length] header, when line 55
    does not raise. *)
Definition header_total (h : option string) : option Z :=
  match h with
  | None => Some 0
  | Some s => PyStr.int s
  end.

(** The two lines printed before the request. *)
Definition preamble (version : Z) : list event :=
  [Print (MProcessing version (version_dir version));
   Print (MRequest (api_url version))].

(** The traces of the calls the loop of [main] makes for the versions
    [vs], one after the other, each starting in the directory the one
    before left. *)
Fixpoint call_traces (env : environment) (vs : list Z) (fs : Fs.t)
  : list (list event) :=
  match vs with
  | [] => []
  | v :: vs' =>
      let r := download_jdk env v fs in
      trace r :: call_traces env vs' (final_fs r)
  end.

(** ** The three shapes of a call that got its directory

    They are what the case analysis of [download_jdk] below arrives at. *)

(** The exception is caught before any file is opened. *)
Definition fails_early (v : Z) (fs1 : Fs.t) (run : run unit) : Prop :=
  exists e tr,
    run = Run (inr tt) fs1
            (preamble v ++ Get (api_url v) :: tr ++ [Print (handler_msg v e)]) /\
    (tr = [] \/
     exists name total,
       tr = [Print (MPrepare name total); Print (MSaveTo (version_dir v) name)]).

(** The file is there already. *)
Definition skips (env : environment) (v : Z) (fs1 : Fs.t) (run : run unit) : Prop :=
  exists r,
    http_get env (api_url v) = inr r /\
    is_error_status (status_code r) = false /\
    Fs.path_exists (version_dir v) (PurePath.name (PyStr.unquote (url r))) fs1 = true /\
    run = Run (inr tt) fs1
            (preamble v ++
             [Get (api_url v);
              Print (MExists (version_dir v) (PurePath.name (PyStr.unquote (url r))))]).

(** The file is opened and the chunks of the stream are written to it. *)
Definition streams (env : environment) (v : Z) (fs1 : Fs.t) (run : run unit) : Prop :=
  exists r total c,
    let name := PurePath.name (PyStr.unquote (url r)) in
    let chunks := fst (iter_content 8192 r) in
    http_get env (api_url v) = inr r /\
    is_error_status (status_code r) = false /\
    Fs.path_exists (version_dir v) name fs1 = false /\
    header_total (content_length r) = Some total /\
    open_error env (version_dir v) name = None /\
    fs1 !! version_dir v = Some (Fs.NDir c) /\
    run = Run (inr tt)
            (<[version_dir v := Fs.NDir (<[name := Fs.EFile (concat chunks)]> c)]> fs1)
            (preamble v ++
             [Get (api_url v); Print (MPrepare name total);
              Print (MSaveTo (version_dir v) name); Open (version_dir v) name] ++
             chunk_events (version_dir v) name total 0 chunks ++
             [Print (match snd (iter_content 8192 r) with
                     | Some e => handler_msg v e
                     | None => MDone (version_dir v) name
                     end)]).

(** ** Concrete worlds *)

Module Samples.

Definition no_open_error : string -> string -> option string :=
  fun _ _ => None.

(** No network at all: every request times out. *)
Definition offline : environment :=
  {| http_get := fun _ => inl (RequestException "timed out");
     open_error := no_open_error |}.

(** The endpoint answers every request with [r]. *)
Definition serving (r : response) : environment :=
  {| http_get := fun _ => inr r; open_error := no_open_error |}.

Definition small_body : list byte := [x01; x02; x03].

Definition tarball : response :=
  {| status_code := 200;
     url := "https://example.org/r/OpenJDK8U-jdk%2Bb08.tar.gz";
     content_length := Some "3";
     payload := small_body;
     broken_after := None |}.

Definition tarball_name : string := "OpenJDK8U-jdk+b08.tar.gz".

(** The same resource without a [content-length] header. *)
Definition unsized : response :=
  {| status_code := 200;
     url := url tarball;
     content_length := None;
     payload := small_body;
     broken_after := None |}.

(** The header announces five bytes, the stream delivers three. *)
Definition misdeclared : response :=
  {| status_code := 200;
     url := url tarball;
     content_length := Some "5";
     payload := small_body;
     broken_after := None |}.

Definition missing : response :=
  {| status_code := 404;
     url := "https://api.adoptium.net/v3/binary/latest/99/ga";
     content_length := None;
     payload := [];
     broken_after := None |}.






(** The endpoint fails on its side. *)
Definition unavailable : response :=
  {| status_code := 503;
     url := "https://api.adoptium.net/v3/binary/latest/8/ga";
     content_length := None;
     payload := [];
     broken_after := None |}.

(** The final locator ends in a parent reference. *)
Definition dotdot : response :=
  {| status_code := 200;
     url := "https://example.org/r/..";
     content_length := Some "3";
     payload := small_body;
     broken_after := None |}.



(** A regular file sits where the directory of version 9 should go. *)
Definition fs_blocked : Fs.t := {[ "jdk9" := Fs.NFile [] ]}.

(** Version 8 has been downloaded before. *)
Definition fs_with_jdk8 : Fs.t :=
  {[ "jdk8" := Fs.NDir {[ tarball_name := Fs.EFile small_body ]} ]}.

End Samples.

(** * Properties *)

(** ** Strings, paths and version directories *)


Lemma append_cons c a b : String c a +:+ b = String c (a +:+ b).
Proof. reflexivity. Qed.












Lemma to_int_not_nil z :
  Z.to_int z <> Decimal.Pos Decimal.Nil /\ Z.to_int z <> Decimal.Neg Decimal.Nil.
Proof.
  destruct z; simpl; split; try discriminate.
  - intros [= H]. by apply (DecimalPos.Unsigned.to_uint_nonnil p).
  - intros [= H]. by apply (DecimalPos.Unsigned.to_uint_nonnil p).
Qed.

Lemma str_int_inj a b : PyStr.str_int a = PyStr.str_int b -> a = b.
Proof.
  unfold PyStr.str_int. intros H.
  apply (f_equal NilZero.int_of_string) in H.
  destruct (to_int_not_nil a), (to_int_not_nil b).
  rewrite !NilZero.isi in H by assumption.
  injection H as H. apply (f_equal Z.of_int) in H.
  by rewrite !DecimalZ.of_to in H.
Qed.

Lemma version_dir_inj a b : version_dir a = version_dir b -> a = b.
Proof.
  unfold version_dir. intros H. simpl in H. injection H as H.
  by apply str_int_inj.
Qed.

(** ** Chunks *)

Lemma chunks_of_concat size : (0 < size)%nat -> forall fuel l,
  (length l <= fuel)%nat -> concat (chunks_of size fuel l) = l.
Proof.
  intros Hsize. induction fuel as [|fuel IH]; intros l Hl.
  - destruct l; [reflexivity|simpl in Hl; lia].
  - destruct l as [|b l]; [reflexivity|].
    cbn [chunks_of concat]. rewrite IH.
    + apply take_drop.
    + rewrite length_drop. simpl in *. lia.
Qed.

Lemma chunks_of_bounds size : (0 < size)%nat -> forall fuel l,
  Forall (fun c => (0 < length c <= size)%nat) (chunks_of size fuel l).
Proof.
  intros Hsize. induction fuel as [|fuel IH]; intros l; [constructor|].
  destruct l as [|b l]; [constructor|].
  cbn [chunks_of]. constructor; [|apply IH].
  rewrite length_take. simpl. lia.
Qed.

Lemma length_concat_sum (l : list (list byte)) :
  length (concat l) = sum_list (map length l).
Proof.
  induction l as [|c l IH]; [reflexivity|].
  simpl. by rewrite length_app, IH.
Qed.

(** What the loop receives from [iter_content 8192]: pieces of at most 8192
    bytes, none empty, that make up a prefix of the payload, and the whole
    payload when the stream does not break. *)
Lemma iter_content_chunks r :
  Forall (fun c => (0 < length c)%nat /\ Z.of_nat (length c) <= 8192)
         (fst (iter_content 8192 r)) /\
  (exists rest, payload r = concat (fst (iter_content 8192 r)) ++ rest) /\
  (broken_after r = None ->
   snd (iter_content 8192 r) = None /\
   concat (fst (iter_content 8192 r)) = payload r) /\
  (forall k e, broken_after r = Some (k, e) ->
   snd (iter_content 8192 r) = Some e /\
   fst (iter_content 8192 r)
   = take k (chunks_of (Z.to_nat 8192) (length (payload r)) (payload r))).
Proof.
  assert (Hsize : (0 < Z.to_nat 8192)%nat) by lia.
  pose proof (chunks_of_bounds _ Hsize (length (payload r)) (payload r)) as Hb.
  pose proof (chunks_of_concat _ Hsize (length (payload r)) (payload r) (le_n _)) as Hc.
  assert (Hb' : Forall (fun c => (0 < length c)%nat /\ Z.of_nat (length c) <= 8192)
                  (chunks_of (Z.to_nat 8192) (length (payload r)) (payload r))).
  { eapply Forall_impl; [exact Hb|]. simpl. intros c Hc'. lia. }
  unfold iter_content. destruct (broken_after r) as [[k e]|]; simpl.
  - split; [by apply Forall_take|]. split.
    + exists (concat (drop k (chunks_of (Z.to_nat 8192) (length (payload r)) (payload r)))).
      rewrite <- concat_app, take_drop. by rewrite Hc.
    + split; [discriminate|]. intros k' e' [= <- <-]. done.
  - split; [done|]. split; [exists []; by rewrite app_nil_r, Hc|].
    split; [done|discriminate].
Qed.

(** ** Projections of the traces *)

Section Projections.

Context {B : Type} (f : event -> option B).

Lemma omap_chunk_events_silent d n total chunks :
  (forall k, f (Recv k) = None) ->
  (forall k, f (Write d n k) = None) ->
  (forall k, f (Progress k total) = None) ->
  forall w, omap f (chunk_events d n total w chunks) = [].
Proof.
  intros H1 H2 H3. induction chunks as [|c rest IH]; intros w; [done|].
  simpl. rewrite H1, H2, H3. apply IH.
Qed.

End Projections.

Lemma recvs_chunk_events d n total chunks : forall w,
  recvs (chunk_events d n total w chunks) = map length chunks.
Proof.
  induction chunks as [|c rest IH]; intros w; [done|].
  unfold recvs in *. simpl. by rewrite IH.
Qed.

Lemma writes_chunk_events d n total chunks : forall w,
  writes (chunk_events d n total w chunks)
  = map (fun c => (d, n, length c)) chunks.
Proof.
  induction chunks as [|c rest IH]; intros w; [done|].
  unfold writes in *. simpl. by rewrite IH.
Qed.

Lemma progress_chunk_events d n total chunks : forall w,
  progress (chunk_events d n total w chunks)
  = map (fun k => (k, total)) (running_totals w (map length chunks)).
Proof.
  induction chunks as [|c rest IH]; intros w; [done|].
  unfold progress in *. simpl. by rewrite IH.
Qed.

Lemma opens_chunk_events d n total chunks w :
  opens (chunk_events d n total w chunks) = [].
Proof. by apply omap_chunk_events_silent. Qed.

Lemma requests_chunk_events d n total chunks w :
  requests (chunk_events d n total w chunks) = [].
Proof. by apply omap_chunk_events_silent. Qed.

Lemma processed_chunk_events d n total chunks w :
  processed (chunk_events d n total w chunks) = [].
Proof. by apply omap_chunk_events_silent. Qed.

Lemma outcomes_app tr1 tr2 : outcomes (tr1 ++ tr2) = outcomes tr1 ++ outcomes tr2.
Proof. apply omap_app. Qed.

Lemma outcomes_chunk_events d n total chunks : forall w,
  outcomes (chunk_events d n total w chunks) = [].
Proof. induction chunks as [|c rest IH]; intros w; simpl; [done|apply IH]. Qed.

Lemma outcome_of_handler_msg v e :
  exists o, outcome_of_msg (handler_msg v e) = Some o /\ o <> Downloaded /\ o <> AlreadyPresent.
Proof.
  unfold handler_msg.
  destruct e; simpl; try (eexists; split; [reflexivity|split; discriminate]).
  destruct (status =? 404); eexists; (split; [reflexivity|split; discriminate]).
Qed.

Lemma processed_handler_msg v e : processed [Print (handler_msg v e)] = [].
Proof.
  unfold handler_msg. destruct e; try done. by destruct (status =? 404).
Qed.

Lemma streams_projections v name total chunks m :
  let tr := preamble v ++
            [Get (api_url v); Print (MPrepare name total);
             Print (MSaveTo (version_dir v) name); Open (version_dir v) name] ++
            chunk_events (version_dir v) name total 0 chunks ++ [Print m] in
  recvs tr = map length chunks /\
  writes tr = map (fun n => (version_dir v, name, n)) (map length chunks) /\
  progress tr = map (fun k => (k, total)) (running_totals 0 (map length chunks)) /\
  opens tr = [(version_dir v, name)] /\
  outcomes tr = outcomes [Print m].
Proof.
  cbv zeta. unfold recvs, writes, progress, opens, outcomes.
  rewrite !omap_app.
  fold (recvs (chunk_events (version_dir v) name total 0 chunks)).
  fold (writes (chunk_events (version_dir v) name total 0 chunks)).
  fold (progress (chunk_events (version_dir v) name total 0 chunks)).
  fold (opens (chunk_events (version_dir v) name total 0 chunks)).
  fold (outcomes (chunk_events (version_dir v) name total 0 chunks)).
  rewrite recvs_chunk_events, writes_chunk_events, progress_chunk_events,
    opens_chunk_events, outcomes_chunk_events.
  simpl. rewrite !app_nil_r, map_map. done.
Qed.

(** ** The working directory *)

Lemma mkdir_Some d fs fs1 :
Fs.mkdir d fs = Some fs1 ->
exists c, fs1 !! d = Some (Fs.NDir c) /\
  ((fs !! d = None /\ fs1 = <[d := Fs.NDir ∅]> fs /\ c = ∅) \/
   (fs !! d = Some (Fs.NDir c) /\ fs1 = fs)).
Proof.
unfold Fs.mkdir. destruct (fs !! d) as [[?|c]|] eqn:E; intros H; simplify_eq.
- exists c. split; [done|]. right. done.
- exists ∅. split; [apply lookup_insert_eq|]. left. done.
Qed.

Lemma mkdir_None d fs : Fs.mkdir d fs = None <-> Fs.is_file fs d = true.
Proof.
  unfold Fs.mkdir, Fs.is_file.
  destruct (fs !! d) as [[?|?]|]; split; intros; congruence.
Qed.

Lemma mkdir_creatable d fs :
  Fs.is_file fs d = false -> exists fs1, Fs.mkdir d fs = Some fs1.
Proof.
  intros H. destruct (Fs.mkdir d fs) as [fs1|] eqn:E; [eauto|].
  apply mkdir_None in E. congruence.
Qed.

Lemma mkdir_existing d fs c :
  fs !! d = Some (Fs.NDir c) -> Fs.mkdir d fs = Some fs.
Proof. intros H. unfold Fs.mkdir. by rewrite H. Qed.


Lemma path_exists_is_dir d n fs :
  Fs.path_exists d n fs = true -> exists c, fs !! d = Some (Fs.NDir c).
Proof.
  unfold Fs.path_exists. destruct (fs !! d) as [[?|c]|]; try discriminate. eauto.
Qed.

Lemma read_is_dir d n fs data :
  Fs.read d n fs = Some data ->
  exists c, fs !! d = Some (Fs.NDir c) /\ c !! n = Some (Fs.EFile data).
Proof.
  unfold Fs.read. destruct (fs !! d) as [[?|c]|]; try discriminate.
  destruct (c !! n) as [[?|]|] eqn:E; try discriminate. intros [= ->]. eauto.
Qed.

Lemma read_mkdir d fs fs1 d' n' :
  Fs.mkdir d fs = Some fs1 -> Fs.read d' n' fs1 = Fs.read d' n' fs.
Proof.
  intros H. destruct (mkdir_Some _ _ _ H) as (c & Hd & [(Hn & -> & ->)|(_ & ->)]);
    [|reflexivity].
  unfold Fs.read. destruct (decide (d = d')) as [->|Hne].
  - rewrite lookup_insert_eq, Hn. by rewrite lookup_empty.
  - by rewrite lookup_insert_ne.
Qed.

Lemma path_exists_fresh d n fs c :
  fs !! d = Some (Fs.NDir c) -> Fs.path_exists d n fs = false -> c !! n = None.
Proof.
  unfold Fs.path_exists. intros ->.
  destruct (String.eqb n "" || String.eqb n ".."); [discriminate|].
  intros H. apply bool_decide_eq_false in H.
  destruct (c !! n); [exfalso; eauto|reflexivity].
Qed.

Lemma path_exists_mkdir d n fs fs1 :
  Fs.mkdir d fs = Some fs1 ->
  Fs.path_exists d n fs1 = false -> Fs.path_exists d n fs = false.
Proof.
  intros H. destruct (mkdir_Some _ _ _ H) as (c & Hd & [(Hn & _)|(_ & ->)]);
    [|done].
  intros _. unfold Fs.path_exists. by rewrite Hn.
Qed.

Lemma path_exists_store d n c fs data :
  Fs.path_exists d n (<[d := Fs.NDir (<[n := Fs.EFile data]> c)]> fs) = true.
Proof.
  unfold Fs.path_exists. rewrite lookup_insert_eq.
  destruct (String.eqb n "" || String.eqb n ".."); [done|].
  apply bool_decide_eq_true. rewrite lookup_insert_eq. eauto.
Qed.

Lemma read_store_fresh d n c fs data d' n' x :
  fs !! d = Some (Fs.NDir c) -> c !! n = None ->
  Fs.read d' n' fs = Some x ->
  Fs.read d' n' (<[d := Fs.NDir (<[n := Fs.EFile data]> c)]> fs) = Some x.
Proof.
  intros Hd Hn. unfold Fs.read. destruct (decide (d = d')) as [<-|Hne].
  - rewrite lookup_insert_eq, Hd. destruct (decide (n = n')) as [<-|Hne'].
    + by rewrite Hn.
    + by rewrite lookup_insert_ne.
  - by rewrite lookup_insert_ne.
Qed.

Lemma read_store d n c fs data :
  Fs.read d n (<[d := Fs.NDir (<[n := Fs.EFile data]> c)]> fs) = Some data.
Proof. unfold Fs.read. by rewrite !lookup_insert_eq. Qed.

Lemma is_file_mkdir d fs fs1 x :
  Fs.mkdir d fs = Some fs1 -> Fs.is_file fs1 x = Fs.is_file fs x.
Proof.
  intros H. destruct (mkdir_Some _ _ _ H) as (c & Hd & [(Hn & -> & ->)|(_ & ->)]);
    [|done].
  unfold Fs.is_file. destruct (decide (d = x)) as [<-|Hne].
  - by rewrite lookup_insert_eq, Hn.
  - by rewrite lookup_insert_ne.
Qed.

Lemma is_file_store d c c' fs x :
  fs !! d = Some (Fs.NDir c) ->
  Fs.is_file (<[d := Fs.NDir c']> fs) x = Fs.is_file fs x.
Proof.
  intros Hd. unfold Fs.is_file. destruct (decide (d = x)) as [<-|Hne].
  - by rewrite lookup_insert_eq, Hd.
  - by rewrite lookup_insert_ne.
Qed.

Lemma node_file_mkdir d fs fs1 x data :
  Fs.mkdir d fs = Some fs1 ->
  fs !! x = Some (Fs.NFile data) -> fs1 !! x = Some (Fs.NFile data).
Proof.
  intros H. destruct (mkdir_Some _ _ _ H) as (c & Hd & [(Hn & -> & ->)|(_ & ->)]);
    [|done].
  intros Hx. rewrite lookup_insert_ne; [done|]. intros ->. congruence.
Qed.


(** ** Runs of the monadic operations *)

Lemma write_chunks_run d n total chunks : forall w fs c old,
fs !! d = Some (Fs.NDir c) -> c !! n = Some (Fs.EFile old) ->
write_chunks d n total w chunks fs =
Run (inr tt) (<[d := Fs.NDir (<[n := Fs.EFile (old ++ concat chunks)]> c)]> fs)
    (chunk_events d n total w chunks).
Proof.
induction chunks as [|chunk rest IH]; intros w fs c old Hd Hn; simpl.
- unfold ret. f_equal. rewrite app_nil_r. rewrite (insert_id c) by done. by rewrite insert_id.
- unfold bind, emit, modify_fs; simpl.
  assert (Fs.write d n chunk fs
          = <[d := Fs.NDir (<[n := Fs.EFile (old ++ chunk)]> c)]> fs) as ->
    by (unfold Fs.write; by rewrite Hd, Hn).
  erewrite IH; [|apply lookup_insert_eq|apply lookup_insert_eq].
  simpl. f_equal. rewrite !insert_insert_eq. by rewrite <- app_assoc.
Qed.

Section Runs.

Variable env : environment.

Lemma handler_run v e fs :
handler v e fs = Run (inr tt) fs [Print (handler_msg v e)].
Proof.
unfold handler, handler_msg. destruct e; try reflexivity.
destruct (status =? 404); reflexivity.
Qed.

Lemma header_int_run h fs :
header_int h fs =
match header_total h with
| Some n => Run (inr n) fs []
| None => Run (inl (ValueError (default "" h))) fs []
end.
Proof.
unfold header_int, header_total. destruct h as [s|]; [|reflexivity].
simpl. destruct (PyStr.int s); reflexivity.
Qed.

Lemma download_jdk_blocked v fs :
Fs.mkdir (version_dir v) fs = None ->
download_jdk env v fs = Run (inl (FileExistsError (version_dir v))) fs [].
Proof.
intros H. unfold download_jdk, bind, mkdir. rewrite H. reflexivity.
Qed.

Lemma download_jdk_try v fs fs1 :
Fs.mkdir (version_dir v) fs = Some fs1 ->
download_jdk env v fs =
let r := fetch env v fs1 in
match result r with
| inl e => Run (inr tt) (final_fs r)
             (preamble v ++ trace r ++ [Print (handler_msg v e)])
| inr _ => Run (result r) (final_fs r) (preamble v ++ trace r)
end.
Proof.
intros H1. unfold download_jdk, bind, mkdir. rewrite H1. simpl.
unfold try_except. destruct (result (fetch env v fs1)) eqn:E; simpl.
- rewrite handler_run. reflexivity.
- rewrite E. reflexivity.
Qed.

Lemma fetch_get_fails v fs e :
http_get env (api_url v) = inl e ->
fetch env v fs = Run (inl e) fs [Get (api_url v)].
Proof.
intros H. unfold fetch, requests_get, bind; simpl. rewrite H. reflexivity.
Qed.

Lemma fetch_bad_status v fs r :
http_get env (api_url v) = inr r ->
is_error_status (status_code r) = true ->
fetch env v fs = Run (inl (HTTPError (status_code r))) fs [Get (api_url v)].
Proof.
intros H Hs. unfold fetch, requests_get, raise_for_status, bind; simpl.
rewrite H; simpl. rewrite Hs. reflexivity.
Qed.

Lemma fetch_present v fs r :
http_get env (api_url v) = inr r ->
is_error_status (status_code r) = false ->
Fs.path_exists (version_dir v) (PurePath.name (PyStr.unquote (url r))) fs = true ->
fetch env v fs =
Run (inr tt) fs
  [Get (api_url v);
   Print (MExists (version_dir v) (PurePath.name (PyStr.unquote (url r))))].
Proof.
intros H Hs Hp. unfold fetch, requests_get, raise_for_status, path_exists, bind; simpl.
rewrite H; simpl. rewrite Hs; simpl. rewrite Hp. reflexivity.
Qed.

Lemma fetch_bad_header v fs r :
http_get env (api_url v) = inr r ->
is_error_status (status_code r) = false ->
Fs.path_exists (version_dir v) (PurePath.name (PyStr.unquote (url r))) fs = false ->
header_total (content_length r) = None ->
fetch env v fs =
Run (inl (ValueError (default "" (content_length r)))) fs [Get (api_url v)].
Proof.
intros H Hs Hp Hh. unfold fetch, requests_get, raise_for_status, path_exists, bind; simpl.
rewrite H; simpl. rewrite Hs; simpl. rewrite Hp; simpl.
rewrite header_int_run, Hh. reflexivity.
Qed.

Lemma fetch_open_fails v fs r total detail :
http_get env (api_url v) = inr r ->
is_error_status (status_code r) = false ->
Fs.path_exists (version_dir v) (PurePath.name (PyStr.unquote (url r))) fs = false ->
header_total (content_length r) = Some total ->
open_error env (version_dir v) (PurePath.name (PyStr.unquote (url r))) = Some detail ->
fetch env v fs =
Run (inl (OSError detail)) fs
  [Get (api_url v);
   Print (MPrepare (PurePath.name (PyStr.unquote (url r))) total);
   Print (MSaveTo (version_dir v) (PurePath.name (PyStr.unquote (url r))))].
Proof.
intros H Hs Hp Hh Ho.
unfold fetch, requests_get, raise_for_status, path_exists, stream_to_file, open_wb, bind; simpl.
rewrite H; simpl. rewrite Hs; simpl. rewrite Hp; simpl.
rewrite header_int_run, Hh. simpl. rewrite Ho. reflexivity.
Qed.

Lemma fetch_streams v fs r total c :
http_get env (api_url v) = inr r ->
is_error_status (status_code r) = false ->
Fs.path_exists (version_dir v) (PurePath.name (PyStr.unquote (url r))) fs = false ->
header_total (content_length r) = Some total ->
open_error env (version_dir v) (PurePath.name (PyStr.unquote (url r))) = None ->
fs !! version_dir v = Some (Fs.NDir c) ->
let name := PurePath.name (PyStr.unquote (url r)) in
let chunks := fst (iter_content 8192 r) in
fetch env v fs =
Run (match snd (iter_content 8192 r) with Some e => inl e | None => inr tt end)
  (<[version_dir v := Fs.NDir (<[name := Fs.EFile (concat chunks)]> c)]> fs)
  ([Get (api_url v); Print (MPrepare name total);
    Print (MSaveTo (version_dir v) name); Open (version_dir v) name]
   ++ chunk_events (version_dir v) name total 0 chunks
   ++ match snd (iter_content 8192 r) with
      | Some e => []
      | None => [Print (MDone (version_dir v) name)]
      end).
Proof.
intros H Hs Hp Hh Ho Hd. cbv zeta.
unfold fetch, requests_get, raise_for_status, path_exists, stream_to_file, open_wb, bind; simpl.
rewrite H; simpl. rewrite Hs; simpl. rewrite Hp; simpl.
rewrite header_int_run, Hh. simpl. rewrite Ho. simpl.
destruct (iter_content 8192 r) as [chunks broken]. simpl.
set (name := PurePath.name (PyStr.unquote (url r))).
assert (Fs.open_wb (version_dir v) name fs
        = <[version_dir v := Fs.NDir (<[name := Fs.EFile []]> c)]> fs) as ->
  by (unfold Fs.open_wb; by rewrite Hd).
erewrite (write_chunks_run _ _ _ _ _ _ _ []);
  [|apply lookup_insert_eq|apply lookup_insert_eq].
simpl. rewrite !insert_insert_eq.
destruct broken; simpl; rewrite ?app_nil_r; reflexivity.
Qed.
End Runs.

(** ** The shapes of one call *)

#[local] Arguments handler_msg : simpl never.

(** Splits a goal about [fetch env v fs1] into the six ways the body of
    the [try] can go, and rewrites the call into its run. *)
Ltac fetch_cases env v fs1 Hd :=
  let e := fresh "e" in
  let r := fresh "r" in
  let Hget := fresh "Hget" in
  let Hst := fresh "Hst" in
  let Hex := fresh "Hex" in
  let Hh := fresh "Hh" in
  let Ho := fresh "Ho" in
  let total := fresh "total" in
  let detail := fresh "detail" in
  destruct (http_get env (api_url v)) as [e|r] eqn:Hget;
  [ rewrite (fetch_get_fails env v fs1 e Hget)
  | destruct (is_error_status (status_code r)) eqn:Hst;
    [ rewrite (fetch_bad_status env v fs1 r Hget Hst)
    | destruct (Fs.path_exists (version_dir v)
                  (PurePath.name (PyStr.unquote (url r))) fs1) eqn:Hex;
      [ rewrite (fetch_present env v fs1 r Hget Hst Hex)
      | destruct (header_total (content_length r)) as [total|] eqn:Hh;
        [ destruct (open_error env (version_dir v)
                      (PurePath.name (PyStr.unquote (url r))))
            as [detail|] eqn:Ho;
          [ rewrite (fetch_open_fails env v fs1 r total detail Hget Hst Hex Hh Ho)
          | rewrite (fetch_streams env v fs1 r total _ Hget Hst Hex Hh Ho Hd) ]
        | rewrite (fetch_bad_header env v fs1 r Hget Hst Hex Hh) ] ] ] ].

Lemma download_jdk_shape env v fs fs1 :
  Fs.mkdir (version_dir v) fs = Some fs1 ->
  fails_early v fs1 (download_jdk env v fs) \/
  skips env v fs1 (download_jdk env v fs) \/
  streams env v fs1 (download_jdk env v fs).
Proof.
  intros Hmk. destruct (mkdir_Some _ _ _ Hmk) as (c & Hd & _).
  rewrite (download_jdk_try env v fs fs1 Hmk). cbv zeta.
  fetch_cases env v fs1 Hd; cbn [result final_fs trace].
  - left. exists e, []. split; [reflexivity|by left].
  - left. exists (HTTPError (status_code r)), []. split; [reflexivity|by left].
  - right; left. exists r. repeat split; done.
  - left. exists (OSError detail). eexists. split; [reflexivity|]. right. eauto.
  - right; right. exists r, total, c. cbv zeta.
    repeat (split; [assumption|]).
    destruct (snd (iter_content 8192 r)); cbn [result final_fs trace];
      rewrite ?app_nil_r, <- ?app_assoc; reflexivity.
  - left. eexists (ValueError _), []. split; [reflexivity|by left].
Qed.

Lemma download_jdk_present_run env v fs r :
  http_get env (api_url v) = inr r ->
  is_error_status (status_code r) = false ->
  Fs.path_exists (version_dir v) (PurePath.name (PyStr.unquote (url r))) fs = true ->
  download_jdk env v fs =
  Run (inr tt) fs
    (preamble v ++
     [Get (api_url v);
      Print (MExists (version_dir v) (PurePath.name (PyStr.unquote (url r))))]).
Proof.
  intros Hget Hst Hex.
  destruct (path_exists_is_dir _ _ _ Hex) as [c Hd].
  rewrite (download_jdk_try env v fs fs (mkdir_existing _ _ _ Hd)).
  cbv zeta. by rewrite (fetch_present env v fs r Hget Hst Hex).
Qed.

Lemma download_jdk_streams_run env v fs fs1 r total :
  Fs.mkdir (version_dir v) fs = Some fs1 ->
  http_get env (api_url v) = inr r ->
  is_error_status (status_code r) = false ->
  Fs.path_exists (version_dir v) (PurePath.name (PyStr.unquote (url r))) fs1 = false ->
  header_total (content_length r) = Some total ->
  open_error env (version_dir v) (PurePath.name (PyStr.unquote (url r))) = None ->
  streams env v fs1 (download_jdk env v fs).
Proof.
  intros Hmk Hget Hst Hex Hh Ho.
  destruct (mkdir_Some _ _ _ Hmk) as (c & Hd & _).
  exists r, total, c. cbv zeta. repeat (split; [assumption|]).
  rewrite (download_jdk_try env v fs fs1 Hmk). cbv zeta.
  rewrite (fetch_streams env v fs1 r total c Hget Hst Hex Hh Ho Hd).
  destruct (snd (iter_content 8192 r)); cbn [result final_fs trace];
    rewrite ?app_nil_r, <- ?app_assoc; reflexivity.
Qed.

(** The facts about one call that the claims below share: what it does to
    the regular files and directories that were there, and which paths it
    opens and writes. *)
Lemma download_jdk_frame env v fs :
  let run := download_jdk env v fs in
  (forall x, Fs.is_file (final_fs run) x = Fs.is_file fs x) /\
  (forall x data, fs !! x = Some (Fs.NFile data) ->
                  final_fs run !! x = Some (Fs.NFile data)) /\
  (forall d n data, Fs.read d n fs = Some data ->
                    Fs.read d n (final_fs run) = Some data) /\
  (forall d n, (d, n) ∈ opens (trace run) ->
     d = version_dir v /\ Fs.path_exists d n fs = false) /\
  (forall d n k, (d, n, k) ∈ writes (trace run) -> (d, n) ∈ opens (trace run)).
Proof.
  cbv zeta. destruct (Fs.mkdir (version_dir v) fs) as [fs1|] eqn:Hmk.
  2:{ rewrite (download_jdk_blocked env v fs Hmk). simpl.
      repeat split; try done; intros; set_solver. }
  destruct (download_jdk_shape env v fs fs1 Hmk)
    as [(e & tr & -> & Htr)|[(r & Hget & Hst & Hex & ->)|
        (r & total & c & Hget & Hst & Hex & Hh & Ho & Hd & ->)]];
    cbn [result final_fs trace].
  - assert (opens (preamble v ++ Get (api_url v) :: tr ++ [Print (handler_msg v e)]) = []
            /\ writes (preamble v ++ Get (api_url v) :: tr ++ [Print (handler_msg v e)]) = [])
      as [-> ->] by (destruct Htr as [->|(? & ? & ->)]; done).
    split; [intros; by eapply is_file_mkdir|].
    split; [intros; by eapply node_file_mkdir|].
    split; [intros ???; by rewrite (read_mkdir _ _ _ _ _ Hmk)|].
    split; intros; set_solver.
  - split; [intros; by eapply is_file_mkdir|].
    split; [intros; by eapply node_file_mkdir|].
    split; [intros ???; by rewrite (read_mkdir _ _ _ _ _ Hmk)|].
    split; simpl; intros; set_solver.
  - set (name := PurePath.name (PyStr.unquote (url r))) in *.
    set (chunks := (iter_content 8192 r).1).
    assert (Hopens : forall m,
      opens (preamble v ++
        [Get (api_url v); Print (MPrepare name total);
         Print (MSaveTo (version_dir v) name); Open (version_dir v) name] ++
        chunk_events (version_dir v) name total 0 chunks ++ [Print m])
      = [(version_dir v, name)]).
    { intros m. unfold opens. rewrite !omap_app.
      fold (opens (chunk_events (version_dir v) name total 0 chunks)).
      by rewrite opens_chunk_events. }
    assert (Hwrites : forall m,
      writes (preamble v ++
        [Get (api_url v); Print (MPrepare name total);
         Print (MSaveTo (version_dir v) name); Open (version_dir v) name] ++
        chunk_events (version_dir v) name total 0 chunks ++ [Print m])
      = map (fun c => (version_dir v, name, length c)) chunks).
    { intros m. unfold writes. rewrite !omap_app.
      fold (writes (chunk_events (version_dir v) name total 0 chunks)).
      rewrite writes_chunk_events. simpl. by rewrite app_nil_r. }
    rewrite Hopens, Hwrites.
    split; [intros x; rewrite (is_file_store _ _ _ _ _ Hd); by eapply is_file_mkdir|].
    split.
    { intros x data Hx. rewrite lookup_insert_ne.
      - by eapply node_file_mkdir.
      - intros <-. eapply node_file_mkdir in Hx; [|exact Hmk]. congruence. }
    split.
    { intros d n data Hr. apply read_store_fresh; [done| |].
      - by eapply path_exists_fresh.
      - by rewrite (read_mkdir _ _ _ _ _ Hmk). }
    split.
    { intros d n Hin. apply list_elem_of_singleton in Hin. injection Hin as -> ->.
      split; [done|]. by eapply path_exists_mkdir. }
    intros d n k Hin. apply list_elem_of_In, in_map_iff in Hin.
    destruct Hin as (c' & [= <- <- <-] & _). set_solver.
Qed.

Lemma download_jdk_summary env v fs :
  Fs.is_file fs (version_dir v) = false ->
  let run := download_jdk env v fs in
  result run = inr tt /\
  processed (trace run) = [v] /\
  requests (trace run) = [api_url v] /\
  length (outcomes (trace run)) = 1%nat.
Proof.
  intros Hfile. cbv zeta.
  destruct (mkdir_creatable _ _ Hfile) as [fs1 Hmk].
  destruct (download_jdk_shape env v fs fs1 Hmk)
    as [(e & tr & -> & Htr)|[(r & Hget & Hst & Hex & ->)|
        (r & total & c & Hget & Hst & Hex & Hh & Ho & Hd & ->)]];
    cbn [result final_fs trace].
  - destruct (outcome_of_handler_msg v e) as (o & Ho & _).
    pose proof (processed_handler_msg v e) as Hp. unfold processed in Hp.
    destruct Htr as [->|(? & ? & ->)]; simpl in *; rewrite Ho;
      destruct (handler_msg v e); done.
  - done.
  - unfold processed, requests, outcomes. rewrite !omap_app.
    fold (processed (chunk_events (version_dir v)
            (PurePath.name (PyStr.unquote (url r))) total 0 (iter_content 8192 r).1)).
    fold (requests (chunk_events (version_dir v)
            (PurePath.name (PyStr.unquote (url r))) total 0 (iter_content 8192 r).1)).
    fold (outcomes (chunk_events (version_dir v)
            (PurePath.name (PyStr.unquote (url r))) total 0 (iter_content 8192 r).1)).
    rewrite processed_chunk_events, requests_chunk_events, outcomes_chunk_events.
    destruct (snd (iter_content 8192 r)) as [e|]; [|done].
    destruct (outcome_of_handler_msg v e) as (o & Ho' & _).
    pose proof (processed_handler_msg v e) as Hp. unfold processed in Hp.
    simpl in *. rewrite Ho'. destruct (handler_msg v e); done.
Qed.

(** ** The loop *)

Lemma for_each_cons_ok {A} (body : A -> M unit) x xs fs :
  result (body x fs) = inr tt ->
  trace (for_each (x :: xs) body fs)
  = trace (body x fs) ++ trace (for_each xs body (final_fs (body x fs))) /\
  result (for_each (x :: xs) body fs)
  = result (for_each xs body (final_fs (body x fs))) /\
  final_fs (for_each (x :: xs) body fs)
  = final_fs (for_each xs body (final_fs (body x fs))).
Proof. intros H. simpl. unfold bind. rewrite H. simpl. done. Qed.

Lemma for_each_download env vs : forall fs,
  (forall v, v ∈ vs -> Fs.is_file fs (version_dir v) = false) ->
  let run := for_each vs (download_jdk env) fs in
  result run = inr tt /\
  trace run = concat (call_traces env vs fs) /\
  processed (trace run) = vs /\
  requests (trace run) = map api_url vs /\
  length (outcomes (trace run)) = length vs.
Proof.
  induction vs as [|v vs IH]; intros fs Hfree; cbv zeta; [done|].
  assert (Hv : Fs.is_file fs (version_dir v) = false)
    by apply Hfree, list_elem_of_here.
  destruct (download_jdk_summary env v fs Hv) as (Hres & Hproc & Hreq & Hout).
  cbv zeta in *.
  destruct (for_each_cons_ok (download_jdk env) v vs fs Hres) as (-> & -> & _).
  destruct (download_jdk_frame env v fs) as (Hfile & _). cbv zeta in Hfile.
  destruct (IH (final_fs (download_jdk env v fs))) as (IH1 & IH2 & IH3 & IH4 & IH5).
  { intros v' Hv'. rewrite Hfile. by apply Hfree, list_elem_of_further. }
  cbv zeta in *. split; [done|].
  unfold processed, requests, outcomes in *. rewrite !omap_app, length_app.
  rewrite IH2 at 1. rewrite IH3, IH4, IH5, Hproc, Hreq, Hout. done.
Qed.

(** ** The claims *)

(** C1, as stated, fails: with a regular file named [jdk9] in the working
    directory the call for version 9 raises [FileExistsError] out of
    [download_jdk] without reporting any outcome, and the run of [main]
    ends there: versions 10 to 21 are never requested. *)
Lemma download_jdk_raises_when_name_is_taken :
  result (download_jdk Samples.offline 9 Samples.fs_blocked)
    = inl (FileExistsError "jdk9") /\
  outcomes (trace (download_jdk Samples.offline 9 Samples.fs_blocked)) = [] /\
  result (main Samples.offline Samples.fs_blocked)
    = inl (FileExistsError "jdk9") /\
  processed (trace (main Samples.offline Samples.fs_blocked)) = [8].
Proof. vm_compute. repeat split; reflexivity. Qed.

(** C1, as amended: once the version directory could be created, a call
    returns normally whatever the endpoint, the header or the disk do, and
    it reports exactly one outcome, with the line that carries it printed
    last: the completion line, the skip line, or the line an [except]
    clause prints for the exception it caught. *)
Theorem download_jdk_classifies env v fs :
  Fs.is_file fs (version_dir v) = false ->
  let r := download_jdk env v fs in
  result r = inr tt /\
  exists o m,
    outcomes (trace r) = [o] /\
    last (trace r) = Some (Print m) /\
    outcome_of_msg m = Some o /\
    (o = Downloaded \/ o = AlreadyPresent \/ exists e, m = handler_msg v e).
Proof.
  intros Hfile. cbv zeta.
  destruct (mkdir_creatable _ _ Hfile) as [fs1 Hmk].
  destruct (mkdir_Some _ _ _ Hmk) as (c & Hd & _).
  rewrite (download_jdk_try env v fs fs1 Hmk). cbv zeta.
  assert (Hfail : forall e tr,
    outcomes tr = [] ->
    exists o m,
      outcomes (preamble v ++ tr ++ [Print (handler_msg v e)]) = [o] /\
      last (preamble v ++ tr ++ [Print (handler_msg v e)]) = Some (Print m) /\
      outcome_of_msg m = Some o /\
      (o = Downloaded \/ o = AlreadyPresent \/ exists e', m = handler_msg v e')).
  { intros e tr Htr. destruct (outcome_of_handler_msg v e) as (o & Ho' & _).
    exists o, (handler_msg v e).
    rewrite !outcomes_app, Htr, !last_app. simpl. rewrite Ho'. eauto 10. }
  fetch_cases env v fs1 Hd; cbn [result final_fs trace].
  - split; [reflexivity|]. by apply Hfail.
  - split; [reflexivity|]. by apply Hfail.
  - split; [reflexivity|]. exists AlreadyPresent. eexists. simpl. eauto 10.
  - split; [reflexivity|]. by apply Hfail.
  - destruct (snd (iter_content 8192 r)) as [e|] eqn:Hb.
    + split; [reflexivity|]. apply Hfail.
      rewrite app_nil_r.
      change (?a :: ?b :: ?c :: ?d :: ?l) with ([a;b;c;d] ++ l).
      by rewrite outcomes_app, outcomes_chunk_events.
    + split; [reflexivity|]. exists Downloaded. eexists.
      cbn [result final_fs trace].
      rewrite !outcomes_app, outcomes_chunk_events, !last_app. simpl. eauto 10.
  - split; [reflexivity|]. by apply Hfail.
Qed.

Lemma download_jdk_classifies_witness :
  Fs.is_file ∅ (version_dir 8) = false /\
  result (download_jdk Samples.offline 8 ∅) = inr tt.
Proof.
  split; [reflexivity|].
  apply (download_jdk_classifies Samples.offline 8 ∅). reflexivity.
Defined.

(** C2: when the endpoint resolves the version and the file it names is
    already in the version directory, the call reports [AlreadyPresent],
    leaves the working directory exactly as it was, opens and writes no
    file and reads no chunk of the body. *)
Theorem download_jdk_skips_existing env v fs r :
  http_get env (api_url v) = inr r ->
  is_error_status (status_code r) = false ->
  Fs.path_exists (version_dir v) (PurePath.name (PyStr.unquote (url r))) fs = true ->
  let run := download_jdk env v fs in
  result run = inr tt /\
  outcomes (trace run) = [AlreadyPresent] /\
  final_fs run = fs /\
  opens (trace run) = [] /\ writes (trace run) = [] /\ recvs (trace run) = [].
Proof.
  intros Hget Hst Hex. cbv zeta.
  rewrite (download_jdk_present_run env v fs r Hget Hst Hex).
  repeat split; reflexivity.
Qed.

Lemma download_jdk_skips_existing_witness :
  outcomes (trace (download_jdk (Samples.serving Samples.tarball) 8
                     Samples.fs_with_jdk8)) = [AlreadyPresent] /\
  final_fs (download_jdk (Samples.serving Samples.tarball) 8
              Samples.fs_with_jdk8) = Samples.fs_with_jdk8.
Proof.
  pose proof (download_jdk_skips_existing
                (Samples.serving Samples.tarball) 8 Samples.fs_with_jdk8
                Samples.tarball eq_refl eq_refl eq_refl) as H.
  cbv zeta in H. destruct H as (_ & H1 & H2 & _). split; assumption.
Defined.

(** C3: when the directory could be created and the endpoint answers 404,
    the call returns normally, reports [NotFound], opens and writes no file
    and leaves every file as it was; the directory it is left with is the
    one [mkdir] made.  In a loop over versions the next call then starts
    from there. *)
Theorem download_jdk_not_found env v fs r :
  Fs.is_file fs (version_dir v) = false ->
  http_get env (api_url v) = inr r ->
  status_code r = 404 ->
  let run := download_jdk env v fs in
  result run = inr tt /\
  outcomes (trace run) = [NotFound] /\
  opens (trace run) = [] /\ writes (trace run) = [] /\
  Fs.mkdir (version_dir v) fs = Some (final_fs run) /\
  (forall d n, Fs.read d n (final_fs run) = Fs.read d n fs) /\
  (forall vs,
     trace (for_each (v :: vs) (download_jdk env) fs)
     = trace run ++ trace (for_each vs (download_jdk env) (final_fs run))).
Proof.
  intros Hfile Hget Hst. cbv zeta.
  destruct (mkdir_creatable _ _ Hfile) as [fs1 Hmk].
  assert (Hrun : download_jdk env v fs =
    Run (inr tt) fs1 (preamble v ++ [Get (api_url v); Print (MNotFound v)])).
  { rewrite (download_jdk_try env v fs fs1 Hmk). cbv zeta.
    rewrite (fetch_bad_status env v fs1 r Hget) by (by rewrite Hst).
    simpl. unfold handler_msg. by rewrite Hst. }
  split; [by rewrite Hrun|].
  split; [by rewrite Hrun|].
  split; [by rewrite Hrun|].
  split; [by rewrite Hrun|].
  split; [by rewrite Hrun|].
  split.
  - intros d n. rewrite Hrun. simpl. by apply read_mkdir with (d := version_dir v).
  - intros vs. apply for_each_cons_ok. by rewrite Hrun.
Qed.

Lemma download_jdk_not_found_witness :
  outcomes (trace (download_jdk (Samples.serving Samples.missing) 99 ∅))
  = [NotFound].
Proof.
  pose proof (download_jdk_not_found (Samples.serving Samples.missing) 99 ∅
                Samples.missing eq_refl eq_refl eq_refl) as H.
  cbv zeta in H. exact (proj1 (proj2 H)).
Defined.



(** C5, as stated, fails in its first half: [open(path, 'wb')] is not an
    exclusive creation.  On a path that holds a file, exclusive creation
    fails, while the open of line 61 succeeds and cuts the file to length
    zero. *)
Lemma open_wb_is_not_exclusive :
  Fs.read "jdk8" Samples.tarball_name Samples.fs_with_jdk8
    = Some Samples.small_body /\
  Fs.open_exclusive "jdk8" Samples.tarball_name Samples.fs_with_jdk8 = None /\
  result (open_wb Samples.offline "jdk8" Samples.tarball_name
            Samples.fs_with_jdk8) = inr tt /\
  Fs.read "jdk8" Samples.tarball_name
    (final_fs (open_wb Samples.offline "jdk8" Samples.tarball_name
                 Samples.fs_with_jdk8)) = Some [].
Proof. vm_compute. repeat split; reflexivity. Qed.

(** C5, as amended: the destination is opened with mode ['wb'], after the
    check of line 50, and that check alone keeps files from being
    overwritten.  Every regular file that was in the working directory or
    in one of its directories before a call has the same bytes after it;
    every path the call opens lies in the version directory and held
    nothing before the call; and the call writes to no path it did not
    open. *)
Theorem existing_files_never_overwritten env v fs :
  let run := download_jdk env v fs in
  (forall d n data, Fs.read d n fs = Some data ->
                    Fs.read d n (final_fs run) = Some data) /\
  (forall x data, fs !! x = Some (Fs.NFile data) ->
                  final_fs run !! x = Some (Fs.NFile data)) /\
  (forall d n, (d, n) ∈ opens (trace run) ->
     d = version_dir v /\ Fs.path_exists d n fs = false) /\
  (forall d n k, (d, n, k) ∈ writes (trace run) ->
     d = version_dir v /\ Fs.path_exists d n fs = false).
Proof.
  destruct (download_jdk_frame env v fs) as (_ & Hnode & Hread & Hopen & Hwrite).
  cbv zeta in *. repeat split; eauto.
  - by apply (Hopen d n).
  - by apply (Hopen d n).
  - by apply (Hopen d n), (Hwrite d n k).
  - by apply (Hopen d n), (Hwrite d n k).
Qed.




(** C7, as stated, fails: the header announces five bytes, the stream
    delivers three, and the call reports [Downloaded] with a file of three
    bytes. *)
Lemma written_length_differs_from_declared :
  header_total (content_length Samples.misdeclared) = Some 5 /\
  outcomes (trace (download_jdk (Samples.serving Samples.misdeclared) 8 ∅))
    = [Downloaded] /\
  (length <$> Fs.read "jdk8" Samples.tarball_name
     (final_fs (download_jdk (Samples.serving Samples.misdeclared) 8 ∅)))
    = Some 3%nat.
Proof. vm_compute. repeat split; reflexivity. Qed.

(** C7, as amended.  When a call reports [Downloaded], the endpoint
    answered with a response whose [content-length], if any, was read as a
    number [total] that is used for the progress bar only; the stream was
    read in chunks of at least one and at most 8192 bytes; every chunk was
    written to the destination as soon as it was received and the bar was
    then told the number of bytes written so far; and the file holds
    exactly the payload the stream delivered, so that its length is the
    declared one whenever the declared one is the length of the payload.
    A response without the header goes the same way: it is reported
    [Downloaded], with a bar whose total is 0. *)
Theorem downloaded_file_is_the_streamed_body env v fs :
  (Downloaded ∈ outcomes (trace (download_jdk env v fs)) ->
   exists r total,
     let name := PurePath.name (PyStr.unquote (url r)) in
     let run := download_jdk env v fs in
     http_get env (api_url v) = inr r /\
     header_total (content_length r) = Some total /\
     Fs.read (version_dir v) name (final_fs run) = Some (payload r) /\
     Forall (fun n => (0 < n)%nat /\ Z.of_nat n <= 8192) (recvs (trace run)) /\
     sum_list (recvs (trace run)) = length (payload r) /\
     writes (trace run) = map (fun n => (version_dir v, name, n)) (recvs (trace run)) /\
     progress (trace run)
     = map (fun k => (k, total)) (running_totals 0 (recvs (trace run))) /\
     (exists chunks,
        concat chunks = payload r /\
        trace run
        = preamble v ++
          [Get (api_url v); Print (MPrepare name total);
           Print (MSaveTo (version_dir v) name); Open (version_dir v) name] ++
          chunk_events (version_dir v) name total 0 chunks ++
          [Print (MDone (version_dir v) name)]) /\
     (total = Z.of_nat (length (payload r)) ->
      (Z.of_nat ∘ length) <$> Fs.read (version_dir v) name (final_fs run)
      = Some total)) /\
  (forall fs1 r,
     Fs.mkdir (version_dir v) fs = Some fs1 ->
     http_get env (api_url v) = inr r ->
     is_error_status (status_code r) = false ->
     Fs.path_exists (version_dir v) (PurePath.name (PyStr.unquote (url r))) fs1 = false ->
     content_length r = None ->
     open_error env (version_dir v) (PurePath.name (PyStr.unquote (url r))) = None ->
     broken_after r = None ->
     result (download_jdk env v fs) = inr tt /\
     outcomes (trace (download_jdk env v fs)) = [Downloaded] /\
     Fs.read (version_dir v) (PurePath.name (PyStr.unquote (url r)))
       (final_fs (download_jdk env v fs)) = Some (payload r)).
Proof.
  split.
  - destruct (Fs.mkdir (version_dir v) fs) as [fs1|] eqn:Hmk.
    2:{ rewrite (download_jdk_blocked env v fs Hmk). simpl. set_solver. }
    destruct (download_jdk_shape env v fs fs1 Hmk)
      as [(e & tr & -> & Htr)|[(r & Hget & Hst & Hex & ->)|
          (r & total & c & Hget & Hst & Hex & Hh & Ho & Hd & ->)]];
      cbn [result final_fs trace].
    + destruct (outcome_of_handler_msg v e) as (o & Ho & Hne & _).
      assert (outcomes (preamble v ++ Get (api_url v) :: tr ++ [Print (handler_msg v e)]) = [o])
        as ->.
      { destruct Htr as [->|(? & ? & ->)]; simpl; by rewrite Ho. }
      intros Hin. apply list_elem_of_singleton in Hin. congruence.
    + simpl. intros Hin. apply list_elem_of_singleton in Hin. congruence.
    + set (name := PurePath.name (PyStr.unquote (url r))) in *.
      destruct (iter_content_chunks r) as (Hbound & _ & Hnone & Hsome).
      destruct (streams_projections v name total (iter_content 8192 r).1
                  (match (iter_content 8192 r).2 with
                   | Some e => handler_msg v e
                   | None => MDone (version_dir v) name
                   end)) as (Hrecvs & Hwrites & Hprogress & _ & Hout).
      cbv zeta in *. rewrite Hout, Hrecvs, Hwrites, Hprogress.
      destruct (snd (iter_content 8192 r)) as [e|] eqn:Hsnd.
      { destruct (outcome_of_handler_msg v e) as (o & Ho' & Hne & _).
        simpl. rewrite Ho'. intros Hin.
        apply list_elem_of_singleton in Hin. congruence. }
      intros _.
      assert (Hb : broken_after r = None).
      { destruct (broken_after r) as [[k e]|] eqn:Hb; [|done].
        destruct (Hsome k e eq_refl) as [Hs _]. congruence. }
      destruct (Hnone Hb) as [_ Hconcat].
      exists r, total. repeat split; try done.
      * rewrite read_store. by rewrite Hconcat.
      * apply Forall_fmap. eapply Forall_impl; [exact Hbound|]. done.
      * by rewrite <- length_concat_sum, Hconcat.
      * by exists (iter_content 8192 r).1.
      * intros ->. rewrite read_store. simpl. by rewrite Hconcat.
  - intros fs1 r Hmk Hget Hst Hex Hcl Ho Hb.
    assert (Hh : header_total (content_length r) = Some 0) by (by rewrite Hcl).
    destruct (download_jdk_streams_run env v fs fs1 r 0 Hmk Hget Hst Hex Hh Ho)
      as (r' & total & c & Hget' & _ & _ & Hh' & _ & _ & ->).
    rewrite Hget in Hget'. injection Hget' as <-.
    destruct (iter_content_chunks r) as (_ & _ & Hnone & _).
    destruct (Hnone Hb) as [Hsnd Hconcat].
    cbn [result final_fs trace]. rewrite Hsnd.
    destruct (streams_projections v (PurePath.name (PyStr.unquote (url r)))
                total (iter_content 8192 r).1
                (MDone (version_dir v) (PurePath.name (PyStr.unquote (url r)))))
      as (_ & _ & _ & _ & Hout).
    cbv zeta in Hout. rewrite Hout, read_store, Hconcat. done.
Qed.

Lemma downloaded_file_is_the_streamed_body_witness :
  outcomes (trace (download_jdk (Samples.serving Samples.unsized) 8 ∅))
    = [Downloaded] /\
  Fs.read "jdk8" Samples.tarball_name
    (final_fs (download_jdk (Samples.serving Samples.unsized) 8 ∅))
    = Some Samples.small_body.
Proof.
  destruct (downloaded_file_is_the_streamed_body
              (Samples.serving Samples.unsized) 8 ∅) as [_ H].
  assert (Hmk : Fs.mkdir (version_dir 8) ∅ = Some {[ "jdk8" := Fs.NDir ∅ ]})
    by reflexivity.
  destruct (H _ Samples.unsized Hmk eq_refl eq_refl eq_refl eq_refl eq_refl
              eq_refl) as (_ & H1 & H2).
  split; [exact H1|exact H2].
Defined.



(** C9: with the file of an earlier download on disk and the network down
    ([requests.get] raises a [RequestException]), the call reports
    [NetworkError] and nothing else, and leaves the working directory as it
    was.  Conversely a call reports [AlreadyPresent] only after the request
    was answered with a status that is not an error: the request is the
    event right before the skip line. *)
Theorem already_present_needs_resolution env v fs :
  (forall name data detail,
     Fs.read (version_dir v) name fs = Some data ->
     http_get env (api_url v) = inl (RequestException detail) ->
     result (download_jdk env v fs) = inr tt /\
     outcomes (trace (download_jdk env v fs)) = [NetworkError] /\
     final_fs (download_jdk env v fs) = fs) /\
  (AlreadyPresent ∈ outcomes (trace (download_jdk env v fs)) ->
   exists r,
     http_get env (api_url v) = inr r /\
     is_error_status (status_code r) = false /\
     trace (download_jdk env v fs)
     = preamble v ++
       [Get (api_url v);
        Print (MExists (version_dir v) (PurePath.name (PyStr.unquote (url r))))]).
Proof.
  split.
  - intros name data detail Hread Hget.
    destruct (read_is_dir _ _ _ _ Hread) as (c & Hd & _).
    rewrite (download_jdk_try env v fs fs (mkdir_existing _ _ _ Hd)). cbv zeta.
    rewrite (fetch_get_fails env v fs _ Hget). done.
  - destruct (Fs.mkdir (version_dir v) fs) as [fs1|] eqn:Hmk.
    2:{ rewrite (download_jdk_blocked env v fs Hmk). simpl. set_solver. }
    destruct (download_jdk_shape env v fs fs1 Hmk)
      as [(e & tr & -> & Htr)|[(r & Hget & Hst & Hex & ->)|
          (r & total & c & Hget & Hst & Hex & Hh & Ho & Hd & ->)]];
      cbn [result final_fs trace].
    + destruct (outcome_of_handler_msg v e) as (o & Ho & _ & Hne).
      assert (outcomes (preamble v ++ Get (api_url v) :: tr ++ [Print (handler_msg v e)]) = [o])
        as ->.
      { destruct Htr as [->|(? & ? & ->)]; simpl; by rewrite Ho. }
      intros Hin. apply list_elem_of_singleton in Hin. congruence.
    + intros _. exists r. done.
    + rewrite !outcomes_app, outcomes_chunk_events. simpl.
      destruct (snd (iter_content 8192 r)) as [e|].
      * destruct (outcome_of_handler_msg v e) as (o & -> & _ & Hne).
        intros Hin. apply list_elem_of_singleton in Hin. congruence.
      * simpl. intros Hin. apply list_elem_of_singleton in Hin. congruence.
Qed.

Lemma already_present_needs_resolution_witness :
  outcomes (trace (download_jdk Samples.offline 8 Samples.fs_with_jdk8))
  = [NetworkError].
Proof.
  destruct (already_present_needs_resolution Samples.offline 8
              Samples.fs_with_jdk8) as [H _].
  exact (proj1 (proj2 (H Samples.tarball_name Samples.small_body "timed out"
                         eq_refl eq_refl))).
Defined.




(** * Further properties of the script *)

(** ** Locators and file names *)

Lemma append_inj_r (s1 s2 t : string) :
  String.length s1 = String.length s2 -> s1 +:+ t = s2 +:+ t -> s1 = s2.
Proof.
  revert s2. induction s1 as [|c s1 IH]; intros [|c2 s2] Hlen H;
    try discriminate; [reflexivity|].
  rewrite !append_cons in H. injection H as -> H.
  f_equal. apply IH; [by injection Hlen|done].
Qed.

Lemma length_append (s t : string) :
  String.length (s +:+ t) = (String.length s + String.length t)%nat.
Proof. induction s as [|c s IH]; [done|]. rewrite append_cons. simpl. by rewrite IH. Qed.

Lemma api_url_inj a b : api_url a = api_url b -> a = b.
Proof.
  unfold api_url. intros H.
  apply str_int_inj.
  set (suffix := "/" +:+ RELEASE_TYPE +:+ "/" +:+ OS_TYPE +:+ "/" +:+ ARCH_TYPE
                 +:+ "/" +:+ IMAGE_TYPE +:+ "/" +:+ JVM_IMPL +:+ "/" +:+ HEAP_SIZE
                 +:+ "/" +:+ VENDOR) in *.
  assert (H' : PyStr.str_int a +:+ suffix = PyStr.str_int b +:+ suffix).
  { simpl in H. by injection H. }
  apply (append_inj_r _ _ suffix); [|exact H'].
  apply (f_equal String.length) in H'. rewrite !length_append in H'. lia.
Qed.

(** X1: two different versions are never requested under the same URL, and
    never share a directory. *)
Theorem versions_are_kept_apart a b :
  a <> b -> api_url a <> api_url b /\ version_dir a <> version_dir b.
Proof.
  intros Hne. split; intros H; apply Hne.
  - by apply api_url_inj.
  - by apply version_dir_inj.
Qed.

Lemma versions_are_kept_apart_witness :
  api_url 8 <> api_url 9 /\ version_dir 8 <> version_dir 9.
Proof. apply (versions_are_kept_apart 8 9). lia. Defined.




(** ** One call, in more detail *)

Lemma path_exists_local d n (fs fs' : gmap string Fs.node) :
  fs !! d = fs' !! d -> Fs.path_exists d n fs = Fs.path_exists d n fs'.
Proof. unfold Fs.path_exists. by intros ->. Qed.

Lemma download_jdk_outside env v fs x :
  x <> version_dir v -> final_fs (download_jdk env v fs) !! x = fs !! x.
Proof.
  intros Hx. destruct (Fs.mkdir (version_dir v) fs) as [fs1|] eqn:Hmk.
  2:{ by rewrite (download_jdk_blocked env v fs Hmk). }
  assert (Hfs1 : fs1 !! x = fs !! x).
  { destruct (mkdir_Some _ _ _ Hmk) as (c & _ & [(_ & -> & _)|(_ & ->)]); [|done].
    by rewrite lookup_insert_ne. }
  destruct (download_jdk_shape env v fs fs1 Hmk)
    as [(e & tr & -> & _)|[(r & _ & _ & _ & ->)|
        (r & total & c & _ & _ & _ & _ & _ & _ & ->)]];
    cbn [final_fs]; [done|done|].
  by rewrite lookup_insert_ne.
Qed.

(** X3: a call changes nothing outside its own version directory, and
    inside it adds at most one file.  Once [mkdir] has made or found the
    directory, the call either leaves the working directory as it is, or it
    leaves it with one more entry in the version directory: a file under the
    name derived from the response, where nothing was before, holding a
    prefix of the payload. *)
Theorem call_adds_at_most_one_file env v fs fs1 c :
  Fs.mkdir (version_dir v) fs = Some fs1 ->
  fs1 !! version_dir v = Some (Fs.NDir c) ->
  (forall x, x <> version_dir v ->
     final_fs (download_jdk env v fs) !! x = fs !! x) /\
  (final_fs (download_jdk env v fs) = fs1 \/
   exists r data rest,
     http_get env (api_url v) = inr r /\
     c !! PurePath.name (PyStr.unquote (url r)) = None /\
     payload r = data ++ rest /\
     final_fs (download_jdk env v fs)
     = <[version_dir v :=
           Fs.NDir (<[PurePath.name (PyStr.unquote (url r)) := Fs.EFile data]> c)]> fs1).
Proof.
  intros Hmk Hc. split; [intros x Hx; by apply download_jdk_outside|].
  destruct (download_jdk_shape env v fs fs1 Hmk)
    as [(e & tr & -> & _)|[(r & _ & _ & _ & ->)|
        (r & total & c' & Hget & _ & Hex & _ & _ & Hd & ->)]];
    cbn [final_fs]; [by left|by left|].
  rewrite Hc in Hd. injection Hd as <-.
  right. destruct (iter_content_chunks r) as (_ & [rest Hrest] & _).
  exists r, (concat (iter_content 8192 r).1), rest.
  repeat split; try done. by eapply path_exists_fresh.
Qed.

Lemma call_adds_at_most_one_file_witness :
  final_fs (download_jdk (Samples.serving Samples.missing) 99 ∅) !! "jdk8" = None.
Proof.
  assert (Hmk : Fs.mkdir (version_dir 99) ∅ = Some {[ "jdk99" := Fs.NDir ∅ ]})
    by reflexivity.
  assert (Hc : ({[ "jdk99" := Fs.NDir ∅ ]} : gmap string Fs.node) !! version_dir 99
               = Some (Fs.NDir ∅)) by reflexivity.
  destruct (call_adds_at_most_one_file (Samples.serving Samples.missing) 99 ∅
              _ _ Hmk Hc) as [H _].
  rewrite (H "jdk8"); [reflexivity|discriminate].
Defined.

(** X4: a call asks the endpoint once and never again.  When the directory
    cannot be made nothing is requested; otherwise the only request of the
    call goes to the URL of the version, right after the two opening lines
    and before anything is opened, read or written. *)
Theorem call_requests_once env v fs :
  (Fs.is_file fs (version_dir v) = true ->
   trace (download_jdk env v fs) = []) /\
  (Fs.is_file fs (version_dir v) = false ->
   exists rest,
     trace (download_jdk env v fs) = preamble v ++ Get (api_url v) :: rest /\
     requests rest = []).
Proof.
  split.
  - intros Hfile. apply mkdir_None in Hfile.
    by rewrite (download_jdk_blocked env v fs Hfile).
  - intros Hfile. destruct (mkdir_creatable _ _ Hfile) as [fs1 Hmk].
    destruct (download_jdk_shape env v fs fs1 Hmk)
      as [(e & tr & -> & Htr)|[(r & _ & _ & _ & ->)|
          (r & total & c & _ & _ & _ & _ & _ & _ & ->)]];
      cbn [trace].
    + eexists. split; [reflexivity|].
      destruct Htr as [->|(? & ? & ->)]; done.
    + eexists. split; [reflexivity|]. done.
    + eexists ([_; _; _] ++ _ ++ [_]). split; [reflexivity|].
      unfold requests. rewrite !omap_app.
      fold (requests (chunk_events (version_dir v)
              (PurePath.name (PyStr.unquote (url r))) total 0
              (iter_content 8192 r).1)).
      by rewrite requests_chunk_events.
Qed.

Lemma call_requests_once_witness :
  trace (download_jdk Samples.offline 9 Samples.fs_blocked) = [].
Proof.
  destruct (call_requests_once Samples.offline 9 Samples.fs_blocked) as [H _].
  apply H. reflexivity.
Defined.

Lemma download_jdk_early_run env v fs fs1 e tr :
  Fs.mkdir (version_dir v) fs = Some fs1 ->
  fetch env v fs1 = Run (inl e) fs1 tr ->
  download_jdk env v fs
  = Run (inr tt) fs1 (preamble v ++ tr ++ [Print (handler_msg v e)]).
Proof.
  intros Hmk Hf. rewrite (download_jdk_try env v fs fs1 Hmk). cbv zeta.
  by rewrite Hf.
Qed.

(** X5: a resolution that fails is reported by the class of the failure
    and leaves the working directory as [mkdir] left it, with nothing
    opened.  An exception of [requests.get] gives [NetworkError] when it is
    a [RequestException] and [UnknownError] when it is an [OSError] or a
    [ValueError]; a response with a status from 400 to 599 gives [NotFound]
    for 404 and [NetworkError], with the status in the line printed, for
    every other one. *)
Theorem failed_resolution_is_classified env v fs fs1 :
  Fs.mkdir (version_dir v) fs = Some fs1 ->
  (forall e, http_get env (api_url v) = inl e ->
     final_fs (download_jdk env v fs) = fs1 /\
     opens (trace (download_jdk env v fs)) = [] /\
     outcomes (trace (download_jdk env v fs))
     = [match e with
        | HTTPError status => if status =? 404 then NotFound else NetworkError
        | RequestException _ => NetworkError
        | _ => UnknownError
        end]) /\
  (forall r, http_get env (api_url v) = inr r ->
     400 <= status_code r < 600 ->
     final_fs (download_jdk env v fs) = fs1 /\
     opens (trace (download_jdk env v fs)) = [] /\
     outcomes (trace (download_jdk env v fs))
     = [if status_code r =? 404 then NotFound else NetworkError] /\
     last (trace (download_jdk env v fs))
     = Some (Print (if status_code r =? 404 then MNotFound v
                    else MHTTPError v (HTTPError (status_code r))))).
Proof.
  intros Hmk. split.
  - intros e Hget.
    rewrite (download_jdk_early_run env v fs fs1 e _ Hmk
               (fetch_get_fails env v fs1 e Hget)).
    cbn [final_fs trace]. split; [done|].
    unfold handler_msg. destruct e; try done. by destruct (status =? 404).
  - intros r Hget Hst.
    assert (Hst' : is_error_status (status_code r) = true).
    { unfold is_error_status. apply andb_true_intro. split; lia. }
    rewrite (download_jdk_early_run env v fs fs1 _ _ Hmk
               (fetch_bad_status env v fs1 r Hget Hst')).
    cbn [final_fs trace]. split; [done|].
    unfold handler_msg. by destruct (status_code r =? 404).
Qed.

Lemma failed_resolution_is_classified_witness :
  outcomes (trace (download_jdk (Samples.serving Samples.unavailable) 8 ∅))
  = [NetworkError].
Proof.
  assert (Hmk : Fs.mkdir (version_dir 8) ∅ = Some {[ "jdk8" := Fs.NDir ∅ ]})
    by reflexivity.
  destruct (failed_resolution_is_classified
              (Samples.serving Samples.unavailable) 8 ∅ _ Hmk) as [_ H].
  destruct (H Samples.unavailable eq_refl) as (_ & _ & H1 & _).
  - simpl. lia.
  - exact H1.
Defined.



(** X7: a locator without a usable last component is taken for a file that
    is there.  When the derived name is empty or is [".."], the existence
    check of line 50 looks at the version directory itself or at its
    parent, so the call reports [AlreadyPresent], opens nothing and leaves
    the working directory as [mkdir] left it. *)
Theorem degenerate_name_is_skipped env v fs fs1 r :
  Fs.mkdir (version_dir v) fs = Some fs1 ->
  http_get env (api_url v) = inr r ->
  is_error_status (status_code r) = false ->
  PurePath.name (PyStr.unquote (url r)) = ""
  \/ PurePath.name (PyStr.unquote (url r)) = ".." ->
  result (download_jdk env v fs) = inr tt /\
  outcomes (trace (download_jdk env v fs)) = [AlreadyPresent] /\
  opens (trace (download_jdk env v fs)) = [] /\
  final_fs (download_jdk env v fs) = fs1.
Proof.
  intros Hmk Hget Hst Hname.
  destruct (mkdir_Some _ _ _ Hmk) as (c & Hd & _).
  assert (Hex : Fs.path_exists (version_dir v)
                  (PurePath.name (PyStr.unquote (url r))) fs1 = true).
  { unfold Fs.path_exists. rewrite Hd. by destruct Hname as [-> | ->]. }
  rewrite (download_jdk_try env v fs fs1 Hmk). cbv zeta.
  by rewrite (fetch_present env v fs1 r Hget Hst Hex).
Qed.

Lemma degenerate_name_is_skipped_witness :
  outcomes (trace (download_jdk (Samples.serving Samples.dotdot) 8 ∅))
  = [AlreadyPresent].
Proof.
  assert (Hmk : Fs.mkdir (version_dir 8) ∅ = Some {[ "jdk8" := Fs.NDir ∅ ]})
    by reflexivity.
  assert (Hn : PurePath.name (PyStr.unquote (url Samples.dotdot)) = ""
               \/ PurePath.name (PyStr.unquote (url Samples.dotdot)) = "..")
    by (right; reflexivity).
  exact (proj1 (proj2 (degenerate_name_is_skipped
                         (Samples.serving Samples.dotdot) 8 ∅ _ Samples.dotdot
                         Hmk eq_refl eq_refl Hn))).
Defined.



Lemma download_jdk_again env v fs F :
  Fs.is_file fs (version_dir v) = false ->
  F !! version_dir v = final_fs (download_jdk env v fs) !! version_dir v ->
  result (download_jdk env v F) = inr tt /\
  final_fs (download_jdk env v F) = F /\
  opens (trace (download_jdk env v F)) = [] /\
  recvs (trace (download_jdk env v F)) = [] /\
  writes (trace (download_jdk env v F)) = [] /\
  (Downloaded ∈ outcomes (trace (download_jdk env v fs)) ->
   outcomes (trace (download_jdk env v F)) = [AlreadyPresent]).
Proof.
  intros Hfile. destruct (mkdir_creatable _ _ Hfile) as [fs1 Hmk].
  destruct (mkdir_Some _ _ _ Hmk) as (c & Hd & _).
  rewrite (download_jdk_try env v fs fs1 Hmk). cbv zeta.
  assert (Hearly : forall e tr,
    fetch env v F = Run (inl e) F tr ->
    outcomes tr = [] -> opens tr = [] -> recvs tr = [] -> writes tr = [] ->
    F !! version_dir v = fs1 !! version_dir v ->
    result (download_jdk env v F) = inr tt /\
    final_fs (download_jdk env v F) = F /\
    opens (trace (download_jdk env v F)) = [] /\
    recvs (trace (download_jdk env v F)) = [] /\
    writes (trace (download_jdk env v F)) = [] /\
    (Downloaded ∈ outcomes (preamble v ++ tr ++ [Print (handler_msg v e)]) ->
     outcomes (trace (download_jdk env v F)) = [AlreadyPresent])).
  { intros e tr Hf Hout Hop Hre Hwr HF.
    rewrite (download_jdk_early_run env v F F e tr); [|eapply mkdir_existing; by rewrite HF|done].
    cbn [result final_fs trace].
    unfold opens, recvs, writes in *. rewrite !omap_app, Hop, Hre, Hwr.
    repeat split; try done.
    rewrite !outcomes_app, Hout.
    destruct (outcome_of_handler_msg v e) as (o & Ho' & Hne & _).
    simpl. rewrite Ho'. intros Hin. apply list_elem_of_singleton in Hin. congruence. }
  fetch_cases env v fs1 Hd;
    [ | | | | destruct (snd (iter_content 8192 r)) as [e'|] | ];
    cbn [result final_fs trace]; intros HF.
  - rewrite Hd in HF. apply Hearly; try done; [|by rewrite Hd].
    by apply fetch_get_fails.
  - rewrite Hd in HF. apply Hearly; try done; [|by rewrite Hd].
    by apply fetch_bad_status.
  - rewrite Hd in HF.
    rewrite (download_jdk_present_run env v F r Hget Hst).
    + cbn [result final_fs trace]. done.
    + rewrite <- Hex. apply path_exists_local. by rewrite Hd.
  - rewrite Hd in HF. apply Hearly; try done; [|by rewrite Hd].
    apply fetch_open_fails; try done.
    rewrite <- Hex. apply path_exists_local. by rewrite Hd.
  - rewrite lookup_insert_eq in HF.
    rewrite (download_jdk_present_run env v F r Hget Hst).
    + cbn [result final_fs trace]. done.
    + rewrite <- (path_exists_store (version_dir v)
                    (PurePath.name (PyStr.unquote (url r))) c fs1
                    (concat (iter_content 8192 r).1)).
      apply path_exists_local. by rewrite lookup_insert_eq.
  - rewrite lookup_insert_eq in HF.
    rewrite (download_jdk_present_run env v F r Hget Hst).
    + cbn [result final_fs trace]. done.
    + rewrite <- (path_exists_store (version_dir v)
                    (PurePath.name (PyStr.unquote (url r))) c fs1
                    (concat (iter_content 8192 r).1)).
      apply path_exists_local. by rewrite lookup_insert_eq.
  - rewrite Hd in HF. apply Hearly; try done; [|by rewrite Hd].
    apply fetch_bad_header; try done.
    rewrite <- Hex. apply path_exists_local. by rewrite Hd.
Qed.

(** X9: calling [download_jdk] again for the same version, against an
    endpoint that behaves as before, changes nothing on disk.  After any
    first call that did not raise, the second call returns normally, opens
    nothing, reads no chunk, writes nothing and leaves the working
    directory exactly as the first call left it; and when the first call
    reported [Downloaded], the second reports [AlreadyPresent]. *)
Theorem second_call_changes_nothing env v fs :
  Fs.is_file fs (version_dir v) = false ->
  let first := download_jdk env v fs in
  let second := download_jdk env v (final_fs first) in
  result second = inr tt /\
  final_fs second = final_fs first /\
  opens (trace second) = [] /\
  recvs (trace second) = [] /\
  writes (trace second) = [] /\
  (Downloaded ∈ outcomes (trace first) -> outcomes (trace second) = [AlreadyPresent]).
Proof.
  intros Hfile. cbv zeta. by apply download_jdk_again.
Qed.

Lemma second_call_changes_nothing_witness :
  outcomes (trace (download_jdk (Samples.serving Samples.tarball) 8
                     (final_fs (download_jdk (Samples.serving Samples.tarball) 8 ∅))))
  = [AlreadyPresent].
Proof.
  assert (H0 : Fs.is_file ∅ (version_dir 8) = false) by reflexivity.
  destruct (second_call_changes_nothing (Samples.serving Samples.tarball) 8 ∅ H0)
    as (_ & _ & _ & _ & _ & H).
  apply H. vm_compute. constructor.
Defined.

(** ** The whole run *)

Lemma elem_of_nat_range n : forall start v,
  v ∈ nat_range start n <-> start <= v < start + Z.of_nat n.
Proof.
  induction n as [|n IH]; intros start v; cbn [nat_range].
  - split; [intros H; by apply elem_of_nil in H|lia].
  - rewrite elem_of_cons, IH. lia.
Qed.

Lemma elem_of_JDK_VERSIONS v : v ∈ JDK_VERSIONS <-> 8 <= v <= 21.
Proof. unfold JDK_VERSIONS, py_range. rewrite elem_of_nat_range. lia. Qed.

Lemma NoDup_nat_range n : forall start, NoDup (nat_range start n).
Proof.
  induction n as [|n IH]; intros start; cbn [nat_range]; [constructor|].
  apply NoDup_cons. split; [|apply IH]. rewrite elem_of_nat_range. lia.
Qed.

Lemma for_each_cons_err {A} (body : A -> M unit) x xs fs e :
  result (body x fs) = inl e ->
  for_each (x :: xs) body fs
  = Run (inl e) (final_fs (body x fs)) (trace (body x fs)).
Proof. intros H. simpl. unfold bind. by rewrite H. Qed.

Lemma for_each_cons_ok_fs {A} (body : A -> M unit) x xs fs :
  result (body x fs) = inr tt ->
  final_fs (for_each (x :: xs) body fs)
  = final_fs (for_each xs body (final_fs (body x fs))).
Proof. intros H. by apply for_each_cons_ok. Qed.

Lemma download_jdk_result env v fs :
  (Fs.is_file fs (version_dir v) = false /\
   result (download_jdk env v fs) = inr tt) \/
  (Fs.is_file fs (version_dir v) = true /\
   download_jdk env v fs = Run (inl (FileExistsError (version_dir v))) fs []).
Proof.
  destruct (Fs.is_file fs (version_dir v)) eqn:Hfile.
  - right. split; [done|]. by apply download_jdk_blocked, mkdir_None.
  - left. split; [done|]. by apply download_jdk_summary.
Qed.

Lemma main_run env fs :
  final_fs (main env fs) = final_fs (for_each JDK_VERSIONS (download_jdk env) fs) /\
  result (main env fs) = result (for_each JDK_VERSIONS (download_jdk env) fs) /\
  trace (main env fs)
  = [Print MRule; Print MTitle; Print MNote; Print MRule] ++
    trace (for_each JDK_VERSIONS (download_jdk env) fs) ++
    match result (for_each JDK_VERSIONS (download_jdk env) fs) with
    | inl _ => []
    | inr _ => [Print MAllDone]
    end.
Proof.
  unfold main, bind, print, emit. cbn [result final_fs trace].
  destruct (result (for_each JDK_VERSIONS (download_jdk env) fs)) as [e|[]];
    cbn [result final_fs trace]; rewrite ?app_nil_r; done.
Qed.

Lemma for_each_keeps env vs (P : gmap string Fs.node -> Prop) fs :
  (forall v fs', P fs' -> P (final_fs (download_jdk env v fs'))) ->
  P fs -> P (final_fs (for_each vs (download_jdk env) fs)).
Proof.
  intros Hstep. revert fs. induction vs as [|v vs IH]; intros fs HP; [done|].
  destruct (download_jdk_result env v fs) as [[_ Hok]|[_ Herr]].
  - rewrite (for_each_cons_ok_fs _ _ _ _ Hok). by apply IH, Hstep.
  - rewrite (for_each_cons_err _ v vs fs (FileExistsError (version_dir v)))
      by (by rewrite Herr).
    rewrite Herr. done.
Qed.

Lemma for_each_outside env vs fs x :
  (forall v, v ∈ vs -> x <> version_dir v) ->
  final_fs (for_each vs (download_jdk env) fs) !! x = fs !! x.
Proof.
  revert fs. induction vs as [|v vs IH]; intros fs Hx; [done|].
  assert (Hv : x <> version_dir v) by apply Hx, list_elem_of_here.
  destruct (download_jdk_result env v fs) as [[_ Hok]|[_ Herr]].
  - rewrite (for_each_cons_ok_fs _ _ _ _ Hok), IH.
    + by apply download_jdk_outside.
    + intros v' Hv'. by apply Hx, list_elem_of_further.
  - rewrite (for_each_cons_err _ v vs fs (FileExistsError (version_dir v)))
      by (by rewrite Herr).
    by rewrite Herr.
Qed.

(** X10: a run of [main] is safe for what is on disk already, whatever the
    endpoint does and also when the run breaks off.  Every regular file of
    the working directory and of its directories has the same bytes
    afterwards, and every name other than [jdk8], ..., [jdk21] is bound as
    it was: nothing is created, removed or changed outside the fourteen
    version directories. *)
Theorem main_keeps_what_is_there env fs :
  (forall d n data, Fs.read d n fs = Some data ->
                    Fs.read d n (final_fs (main env fs)) = Some data) /\
  (forall x data, fs !! x = Some (Fs.NFile data) ->
                  final_fs (main env fs) !! x = Some (Fs.NFile data)) /\
  (forall x, (forall v, 8 <= v <= 21 -> x <> version_dir v) ->
             final_fs (main env fs) !! x = fs !! x).
Proof.
  destruct (main_run env fs) as (-> & _ & _). split; [|split].
  - intros d n data Hread.
    apply (for_each_keeps env JDK_VERSIONS (fun fs' => Fs.read d n fs' = Some data));
      [|done].
    intros v fs' H. by apply (download_jdk_frame env v fs').
  - intros x data Hx.
    apply (for_each_keeps env JDK_VERSIONS (fun fs' => fs' !! x = Some (Fs.NFile data)));
      [|done].
    intros v fs' H. by apply (download_jdk_frame env v fs').
  - intros x Hx. apply for_each_outside. intros v Hv.
    by apply Hx, elem_of_JDK_VERSIONS.
Qed.





Lemma for_each_settles env vs : NoDup vs -> forall fs,
  (forall v, v ∈ vs -> Fs.is_file fs (version_dir v) = false) ->
  forall v, v ∈ vs ->
    exists S,
      Fs.is_file S (version_dir v) = false /\
      final_fs (for_each vs (download_jdk env) fs) !! version_dir v
      = final_fs (download_jdk env v S) !! version_dir v.
Proof.
  induction vs as [|v0 vs IH]; intros Hnd fs Hfree v Hin;
    [by apply elem_of_nil in Hin|].
  apply NoDup_cons in Hnd as [Hnotin Hnd].
  assert (Hfile0 : Fs.is_file fs (version_dir v0) = false)
    by apply Hfree, list_elem_of_here.
  destruct (download_jdk_summary env v0 fs Hfile0) as (Hok & _). cbv zeta in Hok.
  rewrite (for_each_cons_ok_fs _ _ _ _ Hok).
  destruct (download_jdk_frame env v0 fs) as (Hkeep & _). cbv zeta in Hkeep.
  apply elem_of_cons in Hin as [->|Hin].
  - exists fs. split; [done|]. apply for_each_outside.
    intros u Hu Heq. apply version_dir_inj in Heq. congruence.
  - apply IH; [done| |done].
    intros u Hu. rewrite Hkeep. by apply Hfree, list_elem_of_further.
Qed.

Lemma for_each_quiet env vs F :
  (forall v, v ∈ vs ->
     exists S,
       Fs.is_file S (version_dir v) = false /\
       F !! version_dir v = final_fs (download_jdk env v S) !! version_dir v) ->
  result (for_each vs (download_jdk env) F) = inr tt /\
  final_fs (for_each vs (download_jdk env) F) = F /\
  opens (trace (for_each vs (download_jdk env) F)) = [] /\
  recvs (trace (for_each vs (download_jdk env) F)) = [] /\
  writes (trace (for_each vs (download_jdk env) F)) = [].
Proof.
  induction vs as [|v vs IH]; intros Hall; [done|].
  destruct (Hall v (list_elem_of_here _ _)) as (S & HS & HF).
  destruct (download_jdk_again env v S F HS HF) as (Hok & Hfs & Ho & Hr & Hw & _).
  destruct (for_each_cons_ok (download_jdk env) v vs F Hok) as (-> & -> & ->).
  rewrite Hfs.
  destruct IH as (IH1 & IH2 & IH3 & IH4 & IH5).
  { intros u Hu. by apply Hall, list_elem_of_further. }
  unfold opens, recvs, writes in *. rewrite !omap_app, Ho, Hr, Hw, IH3, IH4, IH5.
  done.
Qed.

(** X12: running [main] a second time against an endpoint that behaves as
    before changes nothing.  After a first run that came to its end, the
    second run comes to its end too, opens no file, reads no chunk of any
    body, writes nothing, and leaves the working directory exactly as the
    first run left it. *)
Theorem second_run_changes_nothing env fs :
  (forall v, 8 <= v <= 21 -> Fs.is_file fs (version_dir v) = false) ->
  let first := main env fs in
  let second := main env (final_fs first) in
  result first = inr tt /\
  result second = inr tt /\
  final_fs second = final_fs first /\
  opens (trace second) = [] /\
  recvs (trace second) = [] /\
  writes (trace second) = [].
Proof.
  intros Hfree. cbv zeta.
  assert (Hfree' : forall v, v ∈ JDK_VERSIONS ->
                             Fs.is_file fs (version_dir v) = false).
  { intros v Hv. by apply Hfree, elem_of_JDK_VERSIONS. }
  destruct (main_run env fs) as (Hfs1 & Hres1 & _).
  destruct (for_each_download env JDK_VERSIONS fs Hfree') as (Hok1 & _).
  cbv zeta in Hok1.
  destruct (for_each_quiet env JDK_VERSIONS (final_fs (main env fs)))
    as (Hok2 & Hfs2 & Ho & Hr & Hw).
  { rewrite Hfs1. apply for_each_settles; [apply NoDup_nat_range|done]. }
  destruct (main_run env (final_fs (main env fs))) as (-> & -> & ->).
  rewrite Hres1, Hok1, Hok2, Hfs2.
  unfold opens, recvs, writes in *. rewrite !omap_app, Ho, Hr, Hw. done.
Qed.

Lemma second_run_changes_nothing_witness :
  final_fs (main (Samples.serving Samples.tarball)
              (final_fs (main (Samples.serving Samples.tarball) ∅)))
  = final_fs (main (Samples.serving Samples.tarball) ∅).
Proof.
  assert (H : forall v, 8 <= v <= 21 -> Fs.is_file ∅ (version_dir v) = false).
  { intros v _. reflexivity. }
  exact (proj1 (proj2 (proj2 (second_run_changes_nothing
                                (Samples.serving Samples.tarball) ∅ H)))).
Defined.
